(** * Retail sales pipeline: validation and transformation rules

    A shallow embedding of [src/validate.py] and [src/transform.py].

    A pandas [DataFrame] is modelled as a list of column labels together
    with a list of rows, every row being a finite map from column label to
    cell.  A cell is a dynamically typed scalar.  The four pandas markers
    for a missing value ([None], [NaN], [NaT], [pd.NA]) are one cell,
    [VNull].  Numbers of dtype [float64] are modelled by exact rationals, so
    no rounding error and no infinity arises in arithmetic; integers of
    dtype [int64]/[Int64] are unbounded.  The row index of a frame is not
    modelled: every operation of the two modules works on rows by position.

    The text parsers of pandas ([strptime] behind [pd.to_datetime], the
    number parser behind [pd.to_numeric]) and Python's formatting of values
    inside f-strings belong to the host and are taken as parameters (class
    [Host]).  Logging is not modelled. *)

From stdpp Require Import gmap strings list fin_maps pretty.
From Stdlib Require Import QArith Qround Qabs Lqa.

Open Scope string_scope.
Open Scope list_scope.

(** ** Cells *)

Inductive value : Type :=
  | VNull
  | VStr (s : string)
  | VInt (z : Z)
  | VFloat (q : Q)
  | VDate (t : Z).   (* a Timestamp, as nanoseconds since the epoch *)

(** [pd.isna] on a scalar. *)
Definition isna (v : value) : bool :=
  match v with VNull => true | _ => false end.

Definition notna (v : value) : bool := negb (isna v).

(** The number held by a cell, if it holds one. *)
Definition to_Q (v : value) : option Q :=
  match v with
  | VInt z => Some (inject_Z z)
  | VFloat q => Some q
  | _ => None
  end.

(** Numeric reading used for totals: a missing value counts for nothing,
    as in [Series.sum()]. *)
Definition qval (v : value) : Q := default 0%Q (to_Q v).

(** Equality of keys as pandas' hash tables see it ([drop_duplicates],
    [duplicated], [merge], [groupby]): numbers compare by value whatever
    their dtype, and missing values are equal to each other. *)
Definition veqb (a b : value) : bool :=
  match a, b with
  | VNull, VNull => true
  | VStr s, VStr t => bool_decide (s = t)
  | VDate s, VDate t => Z.eqb s t
  | (VInt _ | VFloat _), (VInt _ | VFloat _) => Qeq_bool (qval a) (qval b)
  | _, _ => false
  end.

(** Order used by [sort_values] and by the sorted group keys of [groupby]:
    numbers, then timestamps, then strings, missing values last
    ([na_position='last']). *)
Definition vrank (v : value) : nat :=
  match v with
  | VInt _ | VFloat _ => 0
  | VDate _ => 1
  | VStr _ => 2
  | VNull => 3
  end%nat.

Definition vleb (a b : value) : bool :=
  match a, b with
  | VStr s, VStr t => String.leb s t
  | VDate s, VDate t => Z.leb s t
  | (VInt _ | VFloat _), (VInt _ | VFloat _) => Qle_bool (qval a) (qval b)
  | _, _ => Nat.leb (vrank a) (vrank b)
  end.

(** ** Exceptions *)

Inductive exn : Type :=
  | KeyError (label : string)
  | TypeError
  | ValueError
  | ZeroDivisionError
  | NameError.

Inductive result (A : Type) : Type :=
  | Ok (a : A)
  | Raise (e : exn).
Arguments Ok {A} a.
Arguments Raise {A} e.

#[global] Instance result_ret : MRet result := λ A a, Ok a.
#[global] Instance result_bind : MBind result := λ A B f m,
  match m with Ok a => f a | Raise e => Raise e end.

(** ** Frames *)

Abbreviation row := (gmap string value).

Definition cell (r : row) (c : string) : value := default VNull (r !! c).

Record frame : Type := Frame { columns : list string; rows : list row }.

(** [df[c]] *)
Definition getitem (df : frame) (c : string) : result (list value) :=
  if decide (c ∈ columns df) then Ok ((λ r, cell r c) <$> rows df)
  else Raise (KeyError c).

(** [df[c] = s], as a new frame value (the store-level assignment is
    [Store.setitem] below). *)
Definition setitem (df : frame) (c : string) (s : list value) : result frame :=
  if decide (length s = length (rows df)) then
    Ok (Frame (if decide (c ∈ columns df) then columns df else columns df ++ [c])
              (zip_with (λ r v, <[c := v]> r) (rows df) s))
  else Raise ValueError.


(** ** Elementwise arithmetic

    A missing operand gives a missing result.  Text and timestamps are not
    numbers: the model raises [TypeError] where pandas would either raise or
    fall back to Python's operators on objects.  A division by zero, which
    pandas answers with an infinity or a NaN, is reported as
    [ZeroDivisionError], so that a run that returns is a run in which no
    infinity was produced. *)

Definition arith (fz : option (Z → Z → Z)) (fq : Q → Q → Q) (a b : value)
  : result value :=
  match a, b with
  | VStr _, _ | VDate _, _ | _, VStr _ | _, VDate _ => Raise TypeError
  | VNull, _ | _, VNull => Ok VNull
  | VInt x, VInt y =>
      match fz with
      | Some f => Ok (VInt (f x y))
      | None => Ok (VFloat (fq (inject_Z x) (inject_Z y)))
      end
  | _, _ => Ok (VFloat (fq (qval a) (qval b)))
  end.

Definition vmul : value → value → result value := arith (Some Z.mul) Qmult.
Definition vsub : value → value → result value := arith (Some Z.sub) Qminus.
Definition vadd : value → value → result value := arith (Some Z.add) Qplus.

Definition is_zero (v : value) : bool :=
  match to_Q v with Some q => Qeq_bool q 0 | None => false end.

Definition vdiv (a b : value) : result value :=
  if is_zero b then
    match a with
    | VStr _ | VDate _ => Raise TypeError
    | _ => Raise ZeroDivisionError
    end
  else arith None Qdiv a b.

Definition series_op (op : value → value → result value) (s t : list value)
  : result (list value) :=
  if decide (length s = length t) then mapM (λ p, op p.1 p.2) (zip s t)
  else Raise ValueError.

(** [s * k], [s / k] with a scalar *)
Definition series_scalar (op : value → value → result value) (s : list value)
    (k : value) : result (list value) :=
  mapM (λ v, op v k) s.

(** [Series.replace(old, new)] *)
Definition replace (old new : value) (s : list value) : list value :=
  (λ v, if veqb v old then new else v) <$> s.

(** [Series.fillna(x)] *)
Definition fillna (x : value) (s : list value) : list value :=
  (λ v, if isna v then x else v) <$> s.

(** Rounding to the nearest integer, ties to the even one, as
    [numpy.round] does. *)
Definition round_half_even (x : Q) : Z :=
  let f := Qfloor x in
  match (x - inject_Z f) ?= (1 # 2) with
  | Lt => f
  | Gt => (f + 1)%Z
  | Eq => if Z.even f then f else (f + 1)%Z
  end%Q.

Definition round2 (q : Q) : Q := Qmake (round_half_even (q * 100)) 100.

(** [.round(2)] on one cell: only floats are touched. *)
Definition round_cell (v : value) : value :=
  match v with VFloat q => VFloat (round2 q) | _ => v end.

(** [DataFrame.round(2)] *)
Definition frame_round (df : frame) : frame :=
  Frame (columns df) ((λ r : row, round_cell <$> r) <$> rows df).

(** ** Host functions *)

Class Host : Type := {
  (** [strptime fmt x]: the timestamp read from the scalar [x] (text, or a
      number as pandas presents it to the parser) with the format [fmt];
      [None] when it does not match. *)
  strptime : string → value → option Z;
  (** The number read from a text by [pd.to_numeric]; [None] when the text
      is not a number. *)
  parse_number : string → option (Z + Q);
  (** Formatting inside f-strings. *)
  fmt_labels : list string → string;
  fmt_counts : list (string * nat) → string;
  fmt_values : list value → string;
  fmt_bound : Q → string;
  fmt_nat : nat → string;
}.

(** ** Conversions *)

Section conversions.
Context `{Host}.

(** [pd.to_datetime(s, format=fmt, errors="coerce")] on one cell *)
Definition to_datetime_cell (fmt : string) (v : value) : value :=
  match v with
  | VNull => VNull
  | VDate t => VDate t
  | _ => match strptime fmt v with Some t => VDate t | None => VNull end
  end.

Definition to_datetime (fmt : string) (s : list value) : list value :=
  to_datetime_cell fmt <$> s.

(** [pd.to_numeric(s, errors="coerce")] on one cell *)
Definition to_numeric_cell (v : value) : value :=
  match v with
  | VStr s =>
      match parse_number s with
      | Some (inl z) => VInt z
      | Some (inr q) => VFloat q
      | None => VNull
      end
  | VDate t => VInt t
  | _ => v
  end.

Definition to_numeric (s : list value) : list value := to_numeric_cell <$> s.
End conversions.

(** [.astype("Int64")] on one cell of a numeric series: a float that is
    not a whole number cannot be cast ("cannot safely cast non-equivalent
    float64 to int64"). *)
Definition to_Int64 (v : value) : result value :=
  match v with
  | VNull => Ok VNull
  | VInt z => Ok (VInt z)
  | VFloat q =>
      if Qeq_bool q (inject_Z (Qfloor q)) then Ok (VInt (Qfloor q))
      else Raise TypeError
  | _ => Raise TypeError
  end.

Definition astype_Int64 (s : list value) : result (list value) := mapM to_Int64 s.

(** ** Duplicates *)

(** The elements whose key was not seen before, in their order
    ([keep="first"]). *)
Fixpoint first_seen {A} (key : A → value) (seen : list value) (l : list A)
  : list A :=
  match l with
  | [] => []
  | r :: l' =>
      if existsb (veqb (key r)) seen then first_seen key seen l'
      else r :: first_seen key (key r :: seen) l'
  end.

(** [df.drop_duplicates(subset=[c], keep="first")] *)
Definition drop_duplicates (c : string) (df : frame) : result frame :=
  if decide (c ∈ columns df) then
    Ok (Frame (columns df) (first_seen (λ r, cell r c) [] (rows df)))
  else Raise (KeyError c).

(** ** Text *)

Definition is_space (a : Ascii.ascii) : bool :=
  let n := Ascii.nat_of_ascii a in
  ((9 <=? n) && (n <=? 13) || (28 <=? n) && (n <=? 32))%nat.

Fixpoint lstrip (l : list Ascii.ascii) : list Ascii.ascii :=
  match l with
  | a :: l' => if is_space a then lstrip l' else l
  | [] => []
  end.

(** [str.strip()] *)
Definition strip (s : string) : string :=
  String.string_of_list_ascii
    (rev (lstrip (rev (lstrip (String.list_ascii_of_string s))))).

(** [Series.str.strip()] on one cell: an element that is not text gives a
    missing value. *)
Definition str_strip_cell (v : value) : value :=
  match v with VStr s => VStr (strip s) | _ => VNull end.

(** A column is of dtype [object] when it holds text. *)
Definition is_object (s : list value) : bool :=
  existsb (λ v, match v with VStr _ => true | _ => false end) s.

(** [df.select_dtypes(include="object").columns] *)
Definition object_columns (df : frame) : list string :=
  filter (λ c, is_object ((λ r, cell r c) <$> rows df) = true) (columns df).

(** * transform.py, as functions of frame values *)

Section cleaning.
Context `{Host}.

Definition clean_sales (df : frame) : result frame :=
  (* df = df.copy() *)
  df ← drop_duplicates "transaction_id" df;
  d ← getitem df "date";
  df ← setitem df "date" (to_datetime "%Y-%m-%d" d);
  c ← getitem df "customer_id";
  df ← setitem df "customer_id" (fillna (VStr "UNKNOWN") c);
  q ← getitem df "quantity";
  q ← astype_Int64 (to_numeric q);
  df ← setitem df "quantity" q;
  u ← getitem df "unit_price";
  df ← setitem df "unit_price" (to_numeric u);
  p ← getitem df "discount_pct";
  df ← setitem df "discount_pct" (fillna (VFloat 0) (to_numeric p));
  mret df.

(** [df[str_cols] = df[str_cols].apply(lambda col: col.str.strip())],
    one column after the other. *)
Fixpoint strip_columns (cs : list string) (df : frame) : result frame :=
  match cs with
  | [] => Ok df
  | c :: cs' =>
      s ← getitem df c;
      df ← setitem df c (str_strip_cell <$> s);
      strip_columns cs' df
  end.

Definition clean_products (df : frame) : result frame :=
  (* df = df.copy() *)
  let str_cols := object_columns df in
  df ← strip_columns str_cols df;
  p ← getitem df "cost_price";
  df ← setitem df "cost_price" (to_numeric p);
  mret df.
End cleaning.

(** ** Joins *)

(** [df[[c1, ..., cn]]]: the first missing label is reported. *)
Definition select_columns (cs : list string) (df : frame) : result frame :=
  match filter (λ c, c ∉ columns df) cs with
  | c :: _ => Raise (KeyError c)
  | [] => Ok (Frame cs ((λ r : row, list_to_map ((λ c, (c, cell r c)) <$> cs))
                          <$> rows df))
  end.

(** Move the cell under label [c] to label [c'] *)
Definition rename (c c' : string) (r : row) : row :=
  match r !! c with
  | Some v => <[c' := v]> (delete c r)
  | None => r
  end.

(** [left.merge(right, on=key, how="left")].  Every left row is joined, in
    order, with the right rows of equal key, in order; a left row without a
    match is kept once, with missing values in the right columns.  Labels
    other than the key that occur on both sides get the suffixes [_x] and
    [_y]. *)
Definition merge_left (left right : frame) (on : string) : result frame :=
  if decide (on ∈ columns left) then
    if decide (on ∈ columns right) then
      let others := filter (λ c, c ≠ on) (columns right) in
      let shared := filter (λ c, c ∈ columns left) others in
      let lname c := if decide (c ∈ shared) then c +:+ "_x" else c in
      let rname c := if decide (c ∈ shared) then c +:+ "_y" else c in
      let lrow (r : row) := foldr (λ c acc, rename c (c +:+ "_x") acc) r shared in
      let join (r p : row) :=
        foldr (λ c acc, <[rname c := cell p c]> acc) (lrow r) others in
      Ok (Frame ((lname <$> columns left) ++ (rname <$> others))
                (concat ((λ r : row,
                   match filter (λ p : row, veqb (cell p on) (cell r on) = true)
                                (rows right) with
                   | [] => [join r ∅]
                   | ps => join r <$> ps
                   end) <$> rows left)))
    else Raise (KeyError on)
  else Raise (KeyError on).

Definition merge_sales_products (sales_df products_df : frame) : result frame :=
  right ← select_columns ["product_id"; "name"; "category"; "brand"; "cost_price"]
                         products_df;
  merged ← merge_left sales_df right "product_id";
  (* unmatched = merged["name"].isna().sum() *)
  _ ← getitem merged "name";
  mret merged.

(** ** Derived columns *)

Definition calculate_metrics (df : frame) : result frame :=
  (* df = df.copy() *)
  q ← getitem df "quantity";
  u ← getitem df "unit_price";
  g ← series_op vmul q u;
  df ← setitem df "gross_revenue" g;
  g ← getitem df "gross_revenue";
  d ← getitem df "discount_pct";
  a ← series_op vmul g d;
  df ← setitem df "discount_amount" a;
  g ← getitem df "gross_revenue";
  a ← getitem df "discount_amount";
  n ← series_op vsub g a;
  df ← setitem df "net_revenue" n;
  q ← getitem df "quantity";
  c ← getitem df "cost_price";
  t ← series_op vmul q c;
  df ← setitem df "cost_total" t;
  n ← getitem df "net_revenue";
  t ← getitem df "cost_total";
  p ← series_op vsub n t;
  df ← setitem df "profit" p;
  p ← getitem df "profit";
  n ← getitem df "net_revenue";
  m ← series_op vdiv p (replace (VInt 0) VNull n);
  m ← series_scalar vmul m (VInt 100);
  df ← setitem df "profit_margin_pct" (round_cell <$> m);
  mret df.

(** ** Grouping *)

Inductive aggfunc : Type := Count | Sum | Mean.

(** [Series.sum()]: missing values are skipped, an empty sum is zero. *)
Fixpoint series_sum (s : list value) : result value :=
  match s with
  | [] => Ok (VInt 0)
  | v :: s' =>
      t ← series_sum s';
      if isna v then Ok t else vadd v t
  end.

(** [Series.count()] *)
Definition series_count (s : list value) : value :=
  VInt (Z.of_nat (length (filter (λ v, notna v = true) s))).

(** [Series.mean()]: the mean of the values that are present; missing when
    there is none. *)
Definition series_mean (s : list value) : result value :=
  match filter (λ v, notna v = true) s with
  | [] => Ok VNull
  | xs => t ← series_sum xs; vdiv t (VInt (Z.of_nat (length xs)))
  end.

Definition aggregate (f : aggfunc) (s : list value) : result value :=
  match f with
  | Count => Ok (series_count s)
  | Sum => series_sum s
  | Mean => series_mean s
  end.

Fixpoint insert_by {A} (le : A → A → bool) (x : A) (l : list A) : list A :=
  match l with
  | [] => [x]
  | y :: l' => if le x y then x :: l else y :: insert_by le x l'
  end.

Definition sort_by {A} (le : A → A → bool) (l : list A) : list A :=
  foldr (insert_by le) [] l.

(** The keys of the groups: the distinct keys that are present, sorted.
    With the default [dropna=True] of [groupby], a row whose key is missing
    belongs to no group. *)
Definition group_keys (key : string) (l : list row) : list value :=
  sort_by vleb
    ((λ r, cell r key) <$>
       first_seen (λ r, cell r key) []
         (filter (λ r, notna (cell r key) = true) l)).

(** One output row of [.agg(out=(column, func), ...)] *)
Definition agg_row (key : string) (specs : list (string * (string * aggfunc)))
    (l : list row) (k : value) : result row :=
  let g := filter (λ r, veqb (cell r key) k = true) l in
  cells ← mapM (λ sp : string * (string * aggfunc),
                  v ← aggregate sp.2.2 ((λ r, cell r sp.2.1) <$> g);
                  mret (sp.1, v)) specs;
  mret (<[key := k]> (list_to_map cells)).

(** [df.groupby(key, as_index=False).agg(...)] *)
Definition groupby_agg (key : string) (specs : list (string * (string * aggfunc)))
    (df : frame) : result frame :=
  if decide (key ∈ columns df) then
    match filter (λ c, c ∉ columns df) ((λ sp, sp.2.1) <$> specs) with
    | c :: _ => Raise (KeyError c)
    | [] =>
        rs ← mapM (agg_row key specs (rows df)) (group_keys key (rows df));
        mret (Frame (key :: (fst <$> specs)) rs)
    end
  else Raise (KeyError key).

(** Order of two cells under [sort_values]; missing values come last in
    both directions. *)
Definition sort_le (ascending : bool) (a b : value) : bool :=
  if ascending then vleb a b
  else if isna b then true else if isna a then false else vleb b a.

(** [df.sort_values(c, ascending=...)] *)
Definition sort_values (c : string) (ascending : bool) (df : frame)
  : result frame :=
  if decide (c ∈ columns df) then
    Ok (Frame (columns df)
              (sort_by (λ r1 r2, sort_le ascending (cell r1 c) (cell r2 c))
                       (rows df)))
  else Raise (KeyError c).

Definition aggregate_by_category (df : frame) : result frame :=
  summary ← groupby_agg "category"
    [("total_transactions", ("transaction_id", Count));
     ("total_units_sold", ("quantity", Sum));
     ("total_gross_revenue", ("gross_revenue", Sum));
     ("total_net_revenue", ("net_revenue", Sum));
     ("total_profit", ("profit", Sum))] df;
  summary ← sort_values "total_net_revenue" false (frame_round summary);
  (* .reset_index(drop=True) *)
  mret summary.

Definition aggregate_by_store (df : frame) : result frame :=
  summary ← groupby_agg "store_id"
    [("total_transactions", ("transaction_id", Count));
     ("total_units_sold", ("quantity", Sum));
     ("total_net_revenue", ("net_revenue", Sum));
     ("total_profit", ("profit", Sum));
     ("avg_profit_margin_pct", ("profit_margin_pct", Mean))] df;
  summary ← sort_values "total_net_revenue" false (frame_round summary);
  mret summary.

Definition aggregate_by_date (df : frame) : result frame :=
  summary ← groupby_agg "date"
    [("total_transactions", ("transaction_id", Count));
     ("total_units_sold", ("quantity", Sum));
     ("total_net_revenue", ("net_revenue", Sum));
     ("total_profit", ("profit", Sum))] df;
  summary ← sort_values "date" true (frame_round summary);
  mret summary.

(** * validate.py *)

(** The entries of a result dict besides ['passed'] and ['message']. *)
Inductive detail : Type :=
  | NoDetail
  | NullCounts (d : list (string * nat))
  | DuplicateValues (l : list value)
  | OutOfRangeCount (n : nat)
  | InvalidCount (n : nat).

Record check_result : Type :=
  CheckResult { passed : bool; message : string; details : detail }.

(** [d[k] = v] on a dict kept in insertion order *)
Definition dict_set {V} (k : string) (v : V) (d : list (string * V))
  : list (string * V) :=
  if decide (k ∈ d.*1) then (λ kv, if decide (kv.1 = k) then (k, v) else kv) <$> d
  else d ++ [(k, v)].

(** [Series.unique()] *)
Definition unique (s : list value) : list value := first_seen id [] s.

(** [df[mask]] for a boolean series *)
Definition mask_rows (mask : list bool) (df : frame) : frame :=
  Frame (columns df) ((filter (λ p, p.2 = true) (zip (rows df) mask)).*1).

(** [df.duplicated(subset=[c], keep=False)]: every row whose key occurs
    more than once is marked. *)
Definition duplicated_all (c : string) (df : frame) : result (list bool) :=
  s ← getitem df c;
  mret ((λ v, (2 <=? length (filter (λ w, veqb v w = true) s))%nat) <$> s).

(** [(series < lo) | (series > hi)] on one cell; a comparison with a
    missing value is false. *)
Definition outside (lo hi : Q) (v : value) : bool :=
  match to_Q v with
  | Some q => negb (Qle_bool lo q) || negb (Qle_bool q hi)
  | None => false
  end.

Section validate.
Context `{Host}.

Definition check_required_columns (df : frame) (required : list string)
  : result check_result :=
  let missing := filter (λ col, col ∉ columns df) required in
  match missing with
  | _ :: _ =>
      mret (CheckResult false
              ("Missing required columns: " +:+ fmt_labels missing) NoDetail)
  | [] => mret (CheckResult true "All required columns present" NoDetail)
  end.

(** [{col: int(df[col].isna().sum()) for col in columns if col in df.columns}] *)
Fixpoint null_counts_of (df : frame) (cols : list string)
    (acc : list (string * nat)) : result (list (string * nat)) :=
  match cols with
  | [] => Ok acc
  | col :: cols' =>
      if decide (col ∈ columns df) then
        s ← getitem df col;
        null_counts_of df cols'
          (dict_set col (length (filter (λ v, isna v = true) s)) acc)
      else null_counts_of df cols' acc
  end.

Definition check_no_nulls (df : frame) (cols : list string)
  : result check_result :=
  null_counts ← null_counts_of df cols [];
  let problem_cols := filter (λ kv, (0 < kv.2)%nat) null_counts in
  match problem_cols with
  | _ :: _ =>
      mret (CheckResult false
              ("Null values found: " +:+ fmt_counts problem_cols)
              (NullCounts null_counts))
  | [] =>
      mret (CheckResult true "No nulls in required columns"
              (NullCounts null_counts))
  end.

Definition check_no_duplicates (df : frame) (key_column : string)
  : result check_result :=
  if decide (key_column ∉ columns df) then
    mret (CheckResult false ("Column '" +:+ key_column +:+ "' not found") NoDetail)
  else
    mask ← duplicated_all key_column df;
    s ← getitem (mask_rows mask df) key_column;
    let duplicates := unique s in
    if decide (0 < length duplicates)%nat then
      mret (CheckResult false
              ("Duplicate values in '" +:+ key_column +:+ "': "
                 +:+ fmt_values duplicates)
              (DuplicateValues duplicates))
    else
      mret (CheckResult true ("No duplicates in '" +:+ key_column +:+ "'")
              (DuplicateValues [])).

Definition check_numeric_range (df : frame) (column : string)
    (min_val max_val : Q) : result check_result :=
  if decide (column ∉ columns df) then
    mret (CheckResult false ("Column '" +:+ column +:+ "' not found") NoDetail)
  else
    s ← getitem df column;
    let series := to_numeric s in
    let out_of_range := filter (λ v, outside min_val max_val v = true) series in
    if decide (0 < length out_of_range)%nat then
      mret (CheckResult false
              ("'" +:+ column +:+ "' has " +:+ fmt_nat (length out_of_range)
                 +:+ " value(s) outside [" +:+ fmt_bound min_val +:+ ", "
                 +:+ fmt_bound max_val +:+ "]")
              (OutOfRangeCount (length out_of_range)))
    else
      mret (CheckResult true
              ("'" +:+ column +:+ "' values are within ["
                 +:+ fmt_bound min_val +:+ ", " +:+ fmt_bound max_val +:+ "]")
              (OutOfRangeCount 0)).

Definition check_date_format (df : frame) (column : string) (fmt : string)
  : result check_result :=
  if decide (column ∉ columns df) then
    mret (CheckResult false ("Column '" +:+ column +:+ "' not found") NoDetail)
  else
    s ← getitem df column;
    let parsed := to_datetime fmt s in
    let invalid_count := length (filter (λ v, isna v = true) parsed) in
    if decide (0 < invalid_count)%nat then
      mret (CheckResult false
              ("'" +:+ column +:+ "' has " +:+ fmt_nat invalid_count
                 +:+ " value(s) not matching format '" +:+ fmt +:+ "'")
              (InvalidCount invalid_count))
    else
      mret (CheckResult true
              ("All '" +:+ column +:+ "' values match format '" +:+ fmt +:+ "'")
              (InvalidCount 0)).

Definition run_sales_validation (df : frame)
  : result (list (string * check_result)) :=
  r1 ← check_required_columns df
         ["transaction_id"; "date"; "product_id"; "quantity"; "unit_price";
          "store_id"; "discount_pct"];
  r2 ← check_no_duplicates df "transaction_id";
  r3 ← check_no_nulls df ["transaction_id"];
  r4 ← check_no_nulls df ["product_id"];
  r5 ← check_numeric_range df "quantity" 1 10000;
  r6 ← check_numeric_range df "unit_price" (1 # 100) 100000;
  r7 ← check_numeric_range df "discount_pct" 0 1;
  r8 ← check_date_format df "date" "%Y-%m-%d";
  mret [("required_columns", r1);
        ("no_duplicate_transactions", r2);
        ("no_null_transaction_ids", r3);
        ("no_null_product_ids", r4);
        ("valid_quantity", r5);
        ("valid_unit_price", r6);
        ("valid_discount", r7);
        ("valid_date_format", r8)].
End validate.

(** * The same functions over a store of frame objects

    Python passes frames by reference, and [df[c] = s] updates the object
    that [df] names.  Here a frame object lives in a store, a variable holds
    a reference, [df.copy()] and every pandas method that returns a frame
    allocate a new object, and an assignment to a column overwrites the
    object in place. *)

Module Store.

Abbreviation ref := nat.
Abbreviation heap := (list frame).

Record M (A : Type) : Type := MkM { run : heap → result A * heap }.
Arguments MkM {A} _.
Arguments run {A} _ _.

#[global] Instance M_ret : MRet M := λ A a, MkM (λ h, (Ok a, h)).
#[global] Instance M_bind : MBind M := λ A B f m,
  MkM (λ h, match run m h with
            | (Ok a, h') => run (f a) h'
            | (Raise e, h') => (Raise e, h')
            end).

Definition lift {A} (r : result A) : M A := MkM (λ h, (r, h)).

Definition load (r : ref) : M frame :=
  MkM (λ h, match h !! r with
            | Some f => (Ok f, h)
            | None => (Raise NameError, h)
            end).

Definition alloc (f : frame) : M ref := MkM (λ h, (Ok (length h), h ++ [f])).

Definition store (r : ref) (f : frame) : M unit :=
  MkM (λ h, (Ok tt, <[r := f]> h)).

(** A method or function that only reads the frame *)
Definition df_read {A} (f : frame → result A) (df : ref) : M A :=
  x ← load df; lift (f x).

(** A method that returns a new frame *)
Definition df_apply (f : frame → result frame) (df : ref) : M ref :=
  x ← load df; y ← lift (f x); alloc y.

(** [df.copy()] *)
Definition df_copy (df : ref) : M ref := df_apply Ok df.

(** [df[c]] *)
Definition df_getitem (df : ref) (c : string) : M (list value) :=
  df_read (λ x, getitem x c) df.

(** [df[c] = s] *)
Definition df_setitem (df : ref) (c : string) (s : list value) : M unit :=
  x ← load df; y ← lift (setitem x c s); store df y.

Section transform.
Context `{Host}.

Definition clean_sales (df : ref) : M ref :=
  df ← df_copy df;
  df ← df_apply (drop_duplicates "transaction_id") df;
  d ← df_getitem df "date";
  _ ← df_setitem df "date" (to_datetime "%Y-%m-%d" d);
  c ← df_getitem df "customer_id";
  _ ← df_setitem df "customer_id" (fillna (VStr "UNKNOWN") c);
  q ← df_getitem df "quantity";
  q ← lift (astype_Int64 (to_numeric q));
  _ ← df_setitem df "quantity" q;
  u ← df_getitem df "unit_price";
  _ ← df_setitem df "unit_price" (to_numeric u);
  p ← df_getitem df "discount_pct";
  _ ← df_setitem df "discount_pct" (fillna (VFloat 0) (to_numeric p));
  mret df.

Fixpoint strip_columns (cs : list string) (df : ref) : M unit :=
  match cs with
  | [] => mret tt
  | c :: cs' =>
      s ← df_getitem df c;
      _ ← df_setitem df c (str_strip_cell <$> s);
      strip_columns cs' df
  end.

Definition clean_products (df : ref) : M ref :=
  df ← df_copy df;
  str_cols ← df_read (λ x, Ok (object_columns x)) df;
  _ ← strip_columns str_cols df;
  p ← df_getitem df "cost_price";
  _ ← df_setitem df "cost_price" (to_numeric p);
  mret df.
End transform.

Definition merge_sales_products (sales_df products_df : ref) : M ref :=
  right ← df_apply
    (select_columns ["product_id"; "name"; "category"; "brand"; "cost_price"])
    products_df;
  right ← load right;
  merged ← df_apply (λ left, merge_left left right "product_id") sales_df;
  _ ← df_getitem merged "name";
  mret merged.

Definition calculate_metrics (df : ref) : M ref :=
  df ← df_copy df;
  q ← df_getitem df "quantity";
  u ← df_getitem df "unit_price";
  g ← lift (series_op vmul q u);
  _ ← df_setitem df "gross_revenue" g;
  g ← df_getitem df "gross_revenue";
  d ← df_getitem df "discount_pct";
  a ← lift (series_op vmul g d);
  _ ← df_setitem df "discount_amount" a;
  g ← df_getitem df "gross_revenue";
  a ← df_getitem df "discount_amount";
  n ← lift (series_op vsub g a);
  _ ← df_setitem df "net_revenue" n;
  q ← df_getitem df "quantity";
  c ← df_getitem df "cost_price";
  t ← lift (series_op vmul q c);
  _ ← df_setitem df "cost_total" t;
  n ← df_getitem df "net_revenue";
  t ← df_getitem df "cost_total";
  p ← lift (series_op vsub n t);
  _ ← df_setitem df "profit" p;
  p ← df_getitem df "profit";
  n ← df_getitem df "net_revenue";
  m ← lift (series_op vdiv p (replace (VInt 0) VNull n));
  m ← lift (series_scalar vmul m (VInt 100));
  _ ← df_setitem df "profit_margin_pct" (round_cell <$> m);
  mret df.

(** The three summaries chain methods that each return a new frame. *)
Definition aggregate_by_category (df : ref) : M ref :=
  s ← df_apply (groupby_agg "category"
    [("total_transactions", ("transaction_id", Count));
     ("total_units_sold", ("quantity", Sum));
     ("total_gross_revenue", ("gross_revenue", Sum));
     ("total_net_revenue", ("net_revenue", Sum));
     ("total_profit", ("profit", Sum))]) df;
  s ← df_apply (λ x, Ok (frame_round x)) s;
  df_apply (sort_values "total_net_revenue" false) s.

Definition aggregate_by_store (df : ref) : M ref :=
  s ← df_apply (groupby_agg "store_id"
    [("total_transactions", ("transaction_id", Count));
     ("total_units_sold", ("quantity", Sum));
     ("total_net_revenue", ("net_revenue", Sum));
     ("total_profit", ("profit", Sum));
     ("avg_profit_margin_pct", ("profit_margin_pct", Mean))]) df;
  s ← df_apply (λ x, Ok (frame_round x)) s;
  df_apply (sort_values "total_net_revenue" false) s.

Definition aggregate_by_date (df : ref) : M ref :=
  s ← df_apply (groupby_agg "date"
    [("total_transactions", ("transaction_id", Count));
     ("total_units_sold", ("quantity", Sum));
     ("total_net_revenue", ("net_revenue", Sum));
     ("total_profit", ("profit", Sum))]) df;
  s ← df_apply (λ x, Ok (frame_round x)) s;
  df_apply (sort_values "date" true) s.

(** The checks of validate.py contain no assignment to a frame: each of
    them reads its argument. *)
Section validate.
Context `{Host}.

Definition check_required_columns (df : ref) (required : list string) :=
  df_read (λ x, check_required_columns x required) df.
Definition check_no_nulls (df : ref) (cols : list string) :=
  df_read (λ x, check_no_nulls x cols) df.
Definition check_no_duplicates (df : ref) (key_column : string) :=
  df_read (λ x, check_no_duplicates x key_column) df.
Definition check_numeric_range (df : ref) (column : string) (lo hi : Q) :=
  df_read (λ x, check_numeric_range x column lo hi) df.
Definition check_date_format (df : ref) (column fmt : string) :=
  df_read (λ x, check_date_format x column fmt) df.
Definition run_sales_validation (df : ref) :=
  df_read run_sales_validation df.
End validate.

End Store.

(** * Notions used in the statements *)

(** The keys [ks] differ from each other and from the keys in [seen]. *)
Fixpoint distinct_from (seen ks : list value) : Prop :=
  match ks with
  | [] => True
  | k :: ks' => existsb (veqb k) seen = false ∧ distinct_from (k :: seen) ks'
  end.

Section rows_of_clean_sales.
Context `{Host}.

(** What [clean_sales] does to one row. *)
Definition clean_row (r : row) : result row :=
  q ← to_Int64 (to_numeric_cell (cell r "quantity"));
  mret (<["discount_pct" :=
            let v := to_numeric_cell (cell r "discount_pct") in
            if isna v then VFloat 0 else v]>
       (<["unit_price" := to_numeric_cell (cell r "unit_price")]>
       (<["quantity" := q]>
       (<["customer_id" :=
            let v := cell r "customer_id" in
            if isna v then VStr "UNKNOWN" else v]>
       (<["date" := to_datetime_cell "%Y-%m-%d" (cell r "date")]> r))))).

Definition sales_columns : list string :=
  ["transaction_id"; "date"; "customer_id"; "quantity"; "unit_price";
   "discount_pct"].
End rows_of_clean_sales.

(** What one assignment [df[c] = df[a] op df[b]] does to one row. *)
Definition bin_step (op : value → value → result value) (a b c : string)
    (r : row) : result row :=
  v ← op (cell r a) (cell r b);
  mret (<[c := v]> r).

(** The assignment to [profit_margin_pct], on one row. *)
Definition margin_step (r : row) : result row :=
  m ← vdiv (cell r "profit")
           (let n := cell r "net_revenue" in
            if veqb n (VInt 0) then VNull else n);
  m ← vmul m (VInt 100);
  mret (<["profit_margin_pct" := round_cell m]> r).

(** What [calculate_metrics] does to one row. *)
Definition metrics_row (r : row) : result row :=
  r ← bin_step vmul "quantity" "unit_price" "gross_revenue" r;
  r ← bin_step vmul "gross_revenue" "discount_pct" "discount_amount" r;
  r ← bin_step vsub "gross_revenue" "discount_amount" "net_revenue" r;
  r ← bin_step vmul "quantity" "cost_price" "cost_total" r;
  r ← bin_step vsub "net_revenue" "cost_total" "profit" r;
  margin_step r.

Definition add_column (cols : list string) (c : string) : list string :=
  if decide (c ∈ cols) then cols else cols ++ [c].

(** The run did not end in a division fault. *)
Definition faultless {A} (m : result A) : Prop := m ≠ Raise ZeroDivisionError.









(** [m], run in a store of at least [n] objects, leaves the first [n]
    objects as they are, and what it returns satisfies [Q]. *)
Definition safe {A} (n : nat) (m : Store.M A) (Q : A → Prop) : Prop :=
  ∀ h res h', (n ≤ length h)%nat → Store.run m h = (res, h') →
    (n ≤ length h')%nat ∧ take n h' = take n h ∧ ∀ a, res = Ok a → Q a.

(** A call that ran to [res] returned a reference to a frame equal to
    the one [pure] computes, or raised the same exception. *)
Definition returns (res : result nat * list frame) (pure : result frame) : Prop :=
  match pure with
  | Ok out => ∃ r h', res = (Ok r, h') ∧ h' !! r = Some out
  | Raise e => ∃ h', res = (Raise e, h')
  end.

(** * A small host and small batches, for examples *)

Definition digit_of (a : Ascii.ascii) : option Z :=
  let n := Ascii.nat_of_ascii a in
  if ((48 <=? n) && (n <=? 57))%nat then Some (Z.of_nat (n - 48)) else None.

Fixpoint digits (acc : Z) (s : string) : option Z :=
  match s with
  | EmptyString => Some acc
  | String a s' => d ← digit_of a; digits (10 * acc + d) s'
  end.

(** A whole number written in decimal, with an optional minus sign. *)
Definition parse_int (s : string) : option Z :=
  match s with
  | EmptyString => None
  | String a s' =>
      if Ascii.eqb a (Ascii.ascii_of_nat 45) then
        if bool_decide (s' = "") then None else Z.opp <$> digits 0 s'
      else digits 0 s
  end.

(** Days from 1970-01-01 to the given civil date. *)
Definition days_from_civil (y m d : Z) : Z :=
  let y' := if (m <=? 2)%Z then (y - 1)%Z else y in
  let era := (y' / 400)%Z in
  let yoe := (y' - era * 400)%Z in
  let mp := ((m + 9) mod 12)%Z in
  let doy := ((153 * mp + 2) / 5 + d - 1)%Z in
  let doe := (yoe * 365 + yoe / 4 - yoe / 100 + doy)%Z in
  (era * 146097 + doe - 719468)%Z.

(** A date written [YYYY-MM-DD]. *)
Definition parse_ymd (s : string) : option Z :=
  if (String.length s =? 10)%nat
     && bool_decide (String.substring 4 1 s = "-")
     && bool_decide (String.substring 7 1 s = "-") then
    y ← digits 0 (String.substring 0 4 s);
    m ← digits 0 (String.substring 5 2 s);
    d ← digits 0 (String.substring 8 2 s);
    if ((1 <=? m) && (m <=? 12) && (1 <=? d) && (d <=? 31))%Z
    then Some (days_from_civil y m d * 86400000000000)%Z
    else None
  else None.

Definition show_value (v : value) : string :=
  match v with
  | VNull => "nan"
  | VStr s => "'" +:+ s +:+ "'"
  | VInt z => pretty z
  | VFloat q => pretty (Qnum q) +:+ "/" +:+ pretty (Z.pos (Qden q))
  | VDate t => pretty t
  end.

(** It reads whole numbers and ISO dates, and prints numbers as
    fractions. *)
Definition example_host : Host := {|
  strptime fmt v :=
    match v with
    | VStr s => if bool_decide (fmt = "%Y-%m-%d") then parse_ymd s else None
    | _ => None
    end;
  parse_number s := inl <$> parse_int s;
  fmt_labels l := "[" +:+ String.concat ", " ((λ s, "'" +:+ s +:+ "'") <$> l) +:+ "]";
  fmt_counts d :=
    "{" +:+ String.concat ", "
              ((λ kv : string * nat, "'" +:+ kv.1 +:+ "': " +:+ pretty kv.2) <$> d)
        +:+ "}";
  fmt_values l := "[" +:+ String.concat ", " (show_value <$> l) +:+ "]";
  fmt_bound q := show_value (VFloat q);
  fmt_nat n := pretty n;
|}.

Definition row_of (l : list (string * value)) : row := list_to_map l.

Definition raw_sales_example : frame :=
  Frame ["transaction_id"; "date"; "product_id"; "quantity"; "unit_price";
         "customer_id"; "store_id"; "discount_pct"]
    [ row_of [("transaction_id", VStr "T001"); ("date", VStr "2024-01-15");
              ("product_id", VStr "P001"); ("quantity", VStr "2");
              ("unit_price", VFloat (2999 # 100)); ("customer_id", VStr "C101");
              ("store_id", VStr "S01"); ("discount_pct", VFloat 0)];
      row_of [("transaction_id", VStr "T002"); ("date", VStr "2024-01-16");
              ("product_id", VStr "P002"); ("quantity", VStr "1");
              ("unit_price", VFloat (999 # 100)); ("customer_id", VNull);
              ("store_id", VStr "S01"); ("discount_pct", VNull)];
      row_of [("transaction_id", VStr "T001"); ("date", VStr "2024-01-17");
              ("product_id", VStr "P001"); ("quantity", VStr "3");
              ("unit_price", VFloat (2999 # 100)); ("customer_id", VStr "C101");
              ("store_id", VStr "S02"); ("discount_pct", VFloat (1 # 20))];
      row_of [("transaction_id", VStr "T003"); ("date", VStr "not-a-date");
              ("product_id", VStr "P002"); ("quantity", VStr "many");
              ("unit_price", VInt 5); ("customer_id", VStr "C103");
              ("store_id", VStr "S02"); ("discount_pct", VFloat (1 # 10))];
      row_of [("transaction_id", VStr "T004"); ("date", VStr "2024-01-16");
              ("product_id", VStr "P999"); ("quantity", VStr "4");
              ("unit_price", VInt 5); ("customer_id", VStr "C104");
              ("store_id", VStr "S02"); ("discount_pct", VFloat (1 # 10))] ].

Definition raw_products_example : frame :=
  Frame ["product_id"; "name"; "category"; "brand"; "cost_price";
         "stock_quantity"]
    [ row_of [("product_id", VStr "P001"); ("name", VStr " Wireless Mouse ");
              ("category", VStr "Electronics"); ("brand", VStr "TechGear");
              ("cost_price", VFloat (25 # 2)); ("stock_quantity", VInt 200)];
      row_of [("product_id", VStr "P002"); ("name", VStr "Notebook (A5)");
              ("category", VStr "Stationery"); ("brand", VStr "WriteWell");
              ("cost_price", VNull); ("stock_quantity", VInt 500)] ].

Definition frame_or_empty (r : result frame) : frame :=
  match r with Ok df => df | Raise _ => Frame [] [] end.

Definition clean_sales_example : frame :=
  Eval vm_compute in frame_or_empty (@clean_sales example_host raw_sales_example).

Definition clean_products_example : frame :=
  Eval vm_compute in
    frame_or_empty (@clean_products example_host raw_products_example).

Definition enriched_example : frame :=
  Eval vm_compute in
    frame_or_empty (merge_sales_products clean_sales_example clean_products_example).

Definition metrics_example : frame :=
  Eval vm_compute in frame_or_empty (calculate_metrics enriched_example).


Definition store_summary_example : frame :=
  Eval vm_compute in frame_or_empty (aggregate_by_store metrics_example).

(** The metrics of one sale whose product is not in the catalogue: the
    product fields are missing, the revenue is not. *)
Definition unmatched_sale_row : row :=
  row_of [("transaction_id", VStr "T004"); ("store_id", VStr "S02");
          ("date", VDate 1705363200000000000); ("quantity", VInt 4);
          ("category", VNull); ("gross_revenue", VFloat 20);
          ("net_revenue", VFloat 18); ("profit", VNull);
          ("profit_margin_pct", VNull)].

Definition unmatched_sale_metrics : frame :=
  Frame ["transaction_id"; "store_id"; "date"; "quantity"; "category";
         "gross_revenue"; "net_revenue"; "profit"; "profit_margin_pct"]
    [ unmatched_sale_row ].

(** A batch without the column [product_id]. *)
Definition no_product_id_batch : frame :=
  Frame ["transaction_id"] [ row_of [("transaction_id", VStr "T001")] ].

(** * Properties *)

(** * Facts about cells *)

Lemma veqb_refl a : veqb a a = true.
Proof.
  destruct a; simpl; try done.
  - by apply bool_decide_eq_true.
  - apply Qeq_bool_iff; reflexivity.
  - apply Qeq_bool_iff; reflexivity.
  - apply Z.eqb_refl.
Qed.

Lemma veqb_sym a b : veqb a b = veqb b a.
Proof.
  destruct a, b; simpl; try done.
  - apply bool_decide_ext; naive_solver.
  - apply eq_true_iff_eq; rewrite !Qeq_bool_iff; split; intros ->; reflexivity.
  - apply eq_true_iff_eq; rewrite !Qeq_bool_iff; split; intros ->; reflexivity.
  - apply eq_true_iff_eq; rewrite !Qeq_bool_iff; split; intros ->; reflexivity.
  - apply eq_true_iff_eq; rewrite !Qeq_bool_iff; split; intros ->; reflexivity.
  - apply Z.eqb_sym.
Qed.

Lemma veqb_trans a b c : veqb a b = true → veqb b c = true → veqb a c = true.
Proof.
  destruct a, b, c; simpl; try done;
    rewrite ?bool_decide_eq_true, ?Qeq_bool_iff, ?Z.eqb_eq;
    try congruence; intros -> ?; done.
Qed.


Lemma veqb_isna a b : veqb a b = true → isna a = isna b.
Proof. by destruct a, b. Qed.

(** * Facts about [first_seen] *)

Lemma existsb_veqb_congr a b seen :
  veqb a b = true → existsb (veqb a) seen = existsb (veqb b) seen.
Proof.
  intros Hab. induction seen as [|k seen IH]; simpl; [done|].
  rewrite IH. f_equal. apply eq_true_iff_eq. split; intros Hk.
  - rewrite veqb_sym in Hab. eauto using veqb_trans.
  - eauto using veqb_trans.
Qed.

Section first_seen.
Context {A : Type} (key : A → value).

Lemma first_seen_distinct seen l :
  distinct_from seen (key <$> first_seen key seen l).
Proof.
  revert seen. induction l as [|x l IH]; intros seen; simpl; [done|].
  destruct (existsb (veqb (key x)) seen) eqn:Hx; simpl; auto.
Qed.

Lemma first_seen_fixed seen l :
  distinct_from seen (key <$> l) → first_seen key seen l = l.
Proof.
  revert seen. induction l as [|x l IH]; intros seen; simpl; [done|].
  intros [-> Hl]. f_equal. auto.
Qed.

Lemma first_seen_covers seen l x :
  x ∈ l →
  existsb (veqb (key x)) seen = true ∨
  ∃ y, y ∈ first_seen key seen l ∧ veqb (key y) (key x) = true.
Proof.
  revert seen. induction l as [|z l IH]; intros seen Hx; [by inversion Hx|].
  simpl. apply elem_of_cons in Hx as [->|Hx].
  - destruct (existsb (veqb (key z)) seen) eqn:Hz; [by left|].
    right. exists z. split; [left|apply veqb_refl].
  - destruct (existsb (veqb (key z)) seen) eqn:Hz.
    + destruct (IH seen Hx) as [?|(y & ? & ?)]; eauto.
    + destruct (IH (key z :: seen) Hx) as [Hs|(y & ? & ?)].
      * simpl in Hs. apply orb_true_iff in Hs as [Hs|Hs]; [|by left].
        right. exists z. split; [left|]. by rewrite veqb_sym.
      * right. exists y. split; [by right|done].
Qed.

Lemma first_seen_first seen l y :
  y ∈ first_seen key seen l →
  existsb (veqb (key y)) seen = false ∧
  ∃ i, l !! i = Some y ∧
       ∀ j x, (j < i)%nat → l !! j = Some x → veqb (key x) (key y) = false.
Proof.
  revert seen. induction l as [|z l IH]; intros seen; simpl; [by inversion 1|].
  destruct (existsb (veqb (key z)) seen) eqn:Hz.
  - intros Hy. destruct (IH _ Hy) as (Hfresh & i & Hi & Hbefore).
    split; [done|]. exists (S i). split; [done|].
    intros [|j] x Hj Hx; simpl in Hx.
    + injection Hx as <-. destruct (veqb (key z) (key y)) eqn:Hzy; [|done].
      rewrite (existsb_veqb_congr _ _ _ Hzy) in Hz. congruence.
    + apply (Hbefore j); [lia|done].
  - intros Hy. apply elem_of_cons in Hy as [->|Hy].
    + split; [done|]. exists 0%nat. split; [done|]. intros; lia.
    + destruct (IH _ Hy) as (Hfresh & i & Hi & Hbefore).
      simpl in Hfresh. apply orb_false_iff in Hfresh as [Hzy Hfresh].
      split; [done|]. exists (S i). split; [done|].
      intros [|j] x Hj Hx; simpl in Hx.
      * injection Hx as <-. by rewrite veqb_sym.
      * apply (Hbefore j); [lia|done].
Qed.
End first_seen.

Lemma distinct_from_fresh seen ks j b :
  distinct_from seen ks → ks !! j = Some b → existsb (veqb b) seen = false.
Proof.
  revert seen j. induction ks as [|k ks IH]; intros seen j; [done|].
  intros [Hk Hks] Hj. destruct j as [|j]; simpl in Hj.
  - by injection Hj as <-.
  - specialize (IH _ _ Hks Hj). simpl in IH.
    by apply orb_false_iff in IH as [_ ?].
Qed.

Lemma distinct_from_lookup seen ks i j a b :
  distinct_from seen ks → (i < j)%nat →
  ks !! i = Some a → ks !! j = Some b → veqb a b = false.
Proof.
  revert seen i j. induction ks as [|k ks IH]; intros seen i j; [done|].
  intros [Hk Hks] Hij Hi Hj. destruct j as [|j]; [lia|]. simpl in Hj.
  destruct i as [|i]; simpl in Hi.
  - injection Hi as ->.
    pose proof (distinct_from_fresh _ _ _ _ Hks Hj) as Hb. simpl in Hb.
    apply orb_false_iff in Hb as [Hb _]. by rewrite veqb_sym.
  - apply (IH (k :: seen) i j); [done|lia|done|done].
Qed.

(** * Facts about the exception monad *)

Lemma bind_Ok {A B} (m : result A) (f : A → result B) b :
  m ≫= f = Ok b ↔ ∃ a, m = Ok a ∧ f a = Ok b.
Proof.
  destruct m as [a|e]; simpl; split.
  - eauto.
  - by intros (? & [= <-] & ?).
  - done.
  - by intros (? & ? & ?).
Qed.

Ltac inv_bind H :=
  let x := fresh "x" in
  let Hx := fresh "Hx" in
  apply bind_Ok in H as (x & Hx & H).

Section mapM_result.
Context {A B : Type} (f : A → result B).

Lemma mapM_Ok l k : mapM f l = Ok k ↔ Forall2 (λ x y, f x = Ok y) l k.
Proof.
  split.
  - revert k. induction l as [|x l IH]; intros k Hk; simpl in Hk.
    + injection Hk as <-. constructor.
    + inv_bind Hk. inv_bind Hk. injection Hk as <-. constructor; auto.
  - induction 1 as [|x y l k Hxy _ IH]; simpl; [done|].
    by rewrite Hxy; simpl; rewrite IH.
Qed.

Lemma mapM_Ok_length l k : mapM f l = Ok k → length l = length k.
Proof. intros ?%mapM_Ok. by eapply Forall2_length. Qed.

Lemma mapM_total l :
  Forall (λ x, ∃ y, f x = Ok y) l → ∃ k, mapM f l = Ok k.
Proof.
  induction 1 as [|x l [y Hy] _ [k Hk]]; simpl; [by eexists|].
  rewrite Hy; simpl. rewrite Hk; simpl. by eexists.
Qed.

Lemma mapM_ext_result (g : A → result B) l :
  (∀ x, f x = g x) → mapM f l = mapM g l.
Proof. intros Hfg. induction l as [|x l IH]; simpl; [done|]. by rewrite Hfg, IH. Qed.

Lemma mapM_cons x l :
  mapM f (x :: l) = (y ← f x; k ← mapM f l; mret (y :: k)).
Proof. done. Qed.

Lemma mapM_fmap_result {C} (h : C → A) l :
  mapM f (h <$> l) = mapM (λ x, f (h x)) l.
Proof.
  induction l as [|x l IH]; [done|].
  by rewrite fmap_cons, !mapM_cons, IH.
Qed.
End mapM_result.

Lemma mapM_fixed {A} (f : A → result A) l :
  Forall (λ x, f x = Ok x) l → mapM f l = Ok l.
Proof. intros Hl. apply mapM_Ok. induction Hl; constructor; auto. Qed.

Lemma mapM_pure {A B} (f : A → B) l : mapM (λ x, Ok (f x)) l = Ok (f <$> l).
Proof. induction l as [|x l IH]; simpl; [done|]. by rewrite IH. Qed.

Lemma mapM_zip_with {A B C} (g : A → result B) (F : A → B → C) l :
  mapM (λ x, v ← g x; mret (F x v)) l = (q ← mapM g l; mret (zip_with F l q)).
Proof.
  induction l as [|x l IH]; simpl; [done|].
  destruct (g x) as [v|e]; simpl; [|done].
  rewrite IH. by destruct (mapM g l).
Qed.

Lemma mapM_then_fmap {A B C} (f : A → result B) (h : B → C) l :
  (k ← mapM f l; mret (h <$> k)) = mapM (λ x, y ← f x; mret (h y)) l.
Proof.
  induction l as [|x l IH]; simpl; [done|].
  destruct (f x) as [y|e]; simpl; [|done].
  rewrite <- IH. by destruct (mapM f l).
Qed.

(** * Facts about frames *)

Lemma cell_insert (r : row) c c' v :
  cell (<[c := v]> r) c' = if decide (c = c') then v else cell r c'.
Proof.
  unfold cell. rewrite lookup_insert. by destruct (decide (c = c')).
Qed.

Lemma getitem_Ok df c :
  c ∈ columns df → getitem df c = Ok ((λ r, cell r c) <$> rows df).
Proof. intros. unfold getitem. by rewrite decide_True. Qed.

Lemma setitem_fmap cols (l : list row) c (g : row → value) :
  c ∈ cols →
  setitem (Frame cols l) c (g <$> l)
  = Ok (Frame cols ((λ r, <[c := g r]> r) <$> l)).
Proof.
  intros. unfold setitem; simpl. rewrite length_fmap.
  rewrite !decide_True by done.
  do 2 f_equal. rewrite zip_with_fmap_r. apply zip_with_diag.
Qed.

Lemma setitem_Ok df c s :
  length s = length (rows df) →
  setitem df c s
  = Ok (Frame (if decide (c ∈ columns df) then columns df else columns df ++ [c])
              (zip_with (λ r v, <[c := v]> r) (rows df) s)).
Proof. intros. unfold setitem. by rewrite decide_True. Qed.

Lemma getitem_inv {A} df c (K : list value → result A) out :
  (s ← getitem df c; K s) = Ok out →
  c ∈ columns df ∧ K ((λ r, cell r c) <$> rows df) = Ok out.
Proof. unfold getitem. by case_decide. Qed.

Lemma setitem_columns df c s df' :
  setitem df c s = Ok df' → c ∈ columns df → columns df' = columns df.
Proof.
  unfold setitem. case_decide; [|done]. intros [= <-] Hc. simpl.
  by rewrite decide_True.
Qed.

Lemma setitem_fmap_cell cols (l : list row) c c' (g : value → value) :
  c ∈ cols →
  setitem (Frame cols l) c (g <$> ((λ r, cell r c') <$> l))
  = Ok (Frame cols ((λ r, <[c := g (cell r c')]> r) <$> l)).
Proof. intros. rewrite <- list_fmap_compose. by rewrite setitem_fmap. Qed.

Lemma setitem_mapM cols (l : list row) c c' (g : value → result value)
    {A} (K : frame → result A) :
  c ∈ cols →
  (q ← mapM g ((λ r, cell r c') <$> l); df ← setitem (Frame cols l) c q; K df)
  = (l' ← mapM (λ r, v ← g (cell r c'); mret (<[c := v]> r)) l;
     K (Frame cols l')).
Proof.
  intros Hc. rewrite mapM_fmap_result, mapM_zip_with.
  destruct (mapM (λ x, g (cell x c')) l) as [q|e] eqn:Hq; simpl; [|done].
  apply mapM_Ok_length in Hq.
  rewrite setitem_Ok by done. simpl. by rewrite decide_True.
Qed.

Lemma mapM_then_frame {A} (f : A → result row) (h : row → row) cols l :
  (k ← mapM f l; mret (Frame cols (h <$> k)))
  = (k ← mapM (λ x, y ← f x; mret (h y)) l; mret (Frame cols k)).
Proof. rewrite <- mapM_then_fmap. by destruct (mapM f l). Qed.

Section clean_rows.
Context `{Host}.

Lemma clean_sales_eq df :
  Forall (λ c, c ∈ columns df) sales_columns →
  clean_sales df
  = (rs ← mapM clean_row
            (first_seen (λ r, cell r "transaction_id") [] (rows df));
     mret (Frame (columns df) rs)).
Proof.
  intros Hc. repeat (apply Forall_cons in Hc as [? Hc]).
  unfold clean_sales, drop_duplicates. rewrite decide_True by done.
  cbn [mbind result_bind].
  generalize (first_seen (λ r : row, cell r "transaction_id") [] (rows df)).
  intros l.
  rewrite getitem_Ok by done. cbn [mbind result_bind rows columns].
  unfold to_datetime.
  rewrite setitem_fmap_cell by done. cbn [mbind result_bind rows columns].
  rewrite getitem_Ok by done. cbn [mbind result_bind rows columns].
  unfold fillna.
  rewrite setitem_fmap_cell by done. cbn [mbind result_bind rows columns].
  rewrite getitem_Ok by done. cbn [mbind result_bind rows columns].
  unfold astype_Int64, to_numeric.
  rewrite (mapM_fmap_result to_Int64 to_numeric_cell).
  rewrite (setitem_mapM (columns df) _ "quantity" "quantity") by done.
  rewrite !mapM_fmap_result.
  match goal with |- (mapM ?G l ≫= _) = _ =>
    assert (Hrow : ∀ x, clean_row x
      = (y ← G x;
         mret (<["discount_pct" :=
                   if isna (to_numeric_cell (cell y "discount_pct"))
                   then VFloat 0 else to_numeric_cell (cell y "discount_pct")]>
              (<["unit_price" := to_numeric_cell (cell y "unit_price")]> y))));
    [|rewrite (mapM_ext_result _ _ l Hrow), <- mapM_then_fmap;
      destruct (mapM G l) as [l3|e] eqn:Hl3; [|done]]
  end.
  - intros x. unfold clean_row. rewrite !cell_insert. simpl.
    destruct (to_Int64 _) as [v|e]; [|done]. simpl.
    by rewrite !cell_insert.
  - cbn [mbind result_bind].
    rewrite getitem_Ok by done. cbn [mbind result_bind rows columns].
    rewrite setitem_fmap_cell by done. cbn [mbind result_bind rows columns].
    rewrite getitem_Ok by done. cbn [mbind result_bind rows columns].
    rewrite <- (list_fmap_compose to_numeric_cell).
    rewrite setitem_fmap_cell by done.
    cbn [mbind result_bind rows columns mret result_ret].
    rewrite <- !list_fmap_compose. do 2 f_equal.
    apply list_fmap_ext. intros _ r _. simpl. by rewrite cell_insert.
Qed.

Lemma clean_sales_columns df out :
  clean_sales df = Ok out → Forall (λ c, c ∈ columns df) sales_columns.
Proof.
  intros Hrun. unfold clean_sales in Hrun.
  apply bind_Ok in Hrun as (d & Hd & Hrun).
  unfold drop_duplicates in Hd. case_decide as Ht; [|done]. injection Hd as <-.
  apply getitem_inv in Hrun as [H1 Hrun].
  apply bind_Ok in Hrun as (d1 & Hd1 & Hrun).
  apply setitem_columns in Hd1; [|exact H1].
  apply getitem_inv in Hrun as [H2 Hrun].
  apply bind_Ok in Hrun as (d2 & Hd2 & Hrun).
  apply setitem_columns in Hd2; [|exact H2].
  apply getitem_inv in Hrun as [H3 Hrun].
  apply bind_Ok in Hrun as (q & Hq & Hrun).
  apply bind_Ok in Hrun as (d3 & Hd3 & Hrun).
  apply setitem_columns in Hd3; [|exact H3].
  apply getitem_inv in Hrun as [H4 Hrun].
  apply bind_Ok in Hrun as (d4 & Hd4 & Hrun).
  apply setitem_columns in Hd4; [|exact H4].
  apply getitem_inv in Hrun as [H5 Hrun].
  rewrite Hd4 in H5. rewrite Hd3 in H4, H5. rewrite Hd2 in H3, H4, H5.
  rewrite Hd1 in H2, H3, H4, H5.
  simpl in *. unfold sales_columns. repeat constructor; assumption.
Qed.
End clean_rows.

Section clean_sales_facts.
Context `{Host}.

Lemma to_datetime_cell_idem fmt v :
  to_datetime_cell fmt (to_datetime_cell fmt v) = to_datetime_cell fmt v.
Proof.
  destruct v; simpl; try done; by destruct (strptime _ _).
Qed.

Lemma to_numeric_cell_idem v :
  to_numeric_cell (to_numeric_cell v) = to_numeric_cell v.
Proof. destruct v; simpl; try done. by destruct (parse_number s) as [[?|?]|]. Qed.

Lemma to_Int64_fixed v q :
  to_Int64 v = Ok q → to_numeric_cell q = q ∧ to_Int64 q = Ok q.
Proof.
  destruct v; simpl; try done; try (intros [= <-]; done).
  destruct (Qeq_bool _ _); [|done]. by intros [= <-].
Qed.

Lemma clean_row_key r o c :
  clean_row r = Ok o →
  c ∉ ["date"; "customer_id"; "quantity"; "unit_price"; "discount_pct"] →
  o !! c = r !! c.
Proof.
  unfold clean_row. intros Hr Hc. inv_bind Hr. injection Hr as <-.
  rewrite !not_elem_of_cons in Hc. destruct Hc as (?&?&?&?&?&_).
  by rewrite !lookup_insert_ne.
Qed.

Lemma clean_row_tid r o :
  clean_row r = Ok o → cell o "transaction_id" = cell r "transaction_id".
Proof.
  intros Hr. unfold cell. erewrite clean_row_key; [done..|].
  rewrite !not_elem_of_cons. repeat split; try done. apply not_elem_of_nil.
Qed.

Lemma clean_row_idem r o : clean_row r = Ok o → clean_row o = Ok o.
Proof.
  unfold clean_row at 1. intros Hr. inv_bind Hr. injection Hr as <-.
  apply to_Int64_fixed in Hx as [Hx1 Hx2].
  unfold clean_row. rewrite !cell_insert; simpl. rewrite Hx1, Hx2; simpl.
  f_equal. apply map_eq. intros k.
  rewrite !lookup_insert.
  repeat (case_decide; subst; simpl; try done);
    rewrite ?to_numeric_cell_idem, ?to_datetime_cell_idem; try done.
  - destruct (isna (to_numeric_cell (cell r "discount_pct"))) eqn:E; simpl; [done|].
    by rewrite to_numeric_cell_idem, E.
  - by destruct (isna (cell r "customer_id")) eqn:E; simpl; rewrite ?E.
Qed.

Lemma clean_sales_rows df out :
  clean_sales df = Ok out →
  columns out = columns df ∧
  Forall2 (λ r o, clean_row r = Ok o)
    (first_seen (λ r, cell r "transaction_id") [] (rows df)) (rows out).
Proof.
  intros Hrun. pose proof (clean_sales_columns _ _ Hrun) as Hc.
  rewrite clean_sales_eq in Hrun by done. inv_bind Hrun.
  injection Hrun as <-. split; [done|]. by apply mapM_Ok.
Qed.

(** C6.  [clean_sales] is idempotent on its own output: whenever
    [clean_sales] returns a batch [out] for a raw batch, applying
    [clean_sales] to [out] returns [out] again, cell for cell. *)
Theorem clean_sales_idempotent df out :
  clean_sales df = Ok out → clean_sales out = Ok out.
Proof.
  intros Hrun. pose proof (clean_sales_columns _ _ Hrun) as Hc.
  destruct (clean_sales_rows _ _ Hrun) as [Hcols Hrows].
  rewrite clean_sales_eq by (by rewrite Hcols).
  assert (Hkeys : (λ r, cell r "transaction_id") <$> rows out
                  = (λ r, cell r "transaction_id") <$>
                    first_seen (λ r, cell r "transaction_id") [] (rows df)).
  { clear -Hrows. induction Hrows as [|r o l k Hro _ IH]; simpl; [done|].
    rewrite (clean_row_tid _ _ Hro). by f_equal. }
  rewrite first_seen_fixed.
  - rewrite mapM_fixed; [by destruct out|].
    apply Forall_forall. intros o Ho.
    apply list_elem_of_lookup in Ho as [i Ho].
    destruct (Forall2_lookup_r _ _ _ _ _ Hrows Ho) as (r & _ & Hr).
    by eapply clean_row_idem.
  - rewrite Hkeys. apply first_seen_distinct.
Qed.
Lemma clean_sales_keys df out :
  clean_sales df = Ok out →
  (λ r, cell r "transaction_id") <$> rows out
  = (λ r, cell r "transaction_id") <$>
    first_seen (λ r, cell r "transaction_id") [] (rows df).
Proof.
  intros [_ Hrows]%clean_sales_rows.
  induction Hrows as [|r o l k Hro _ IH]; simpl; [done|].
  rewrite (clean_row_tid _ _ Hro). by f_equal.
Qed.

(** C7.  The output of [clean_sales] has exactly one row per distinct
    [transaction_id]: no two output rows have equal ids, every id of the
    input occurs in the output, and each output row is the cleaned form of
    the first input row, in the original order, that carries its id. *)
Theorem clean_sales_first_occurrence df out :
  clean_sales df = Ok out →
  (∀ i j a b, i ≠ j → rows out !! i = Some a → rows out !! j = Some b →
     veqb (cell a "transaction_id") (cell b "transaction_id") = false) ∧
  (∀ r, r ∈ rows df →
     ∃ o, o ∈ rows out ∧
          veqb (cell o "transaction_id") (cell r "transaction_id") = true) ∧
  (∀ o, o ∈ rows out →
     ∃ i r, rows df !! i = Some r ∧ clean_row r = Ok o ∧
            cell o "transaction_id" = cell r "transaction_id" ∧
            ∀ j r', (j < i)%nat → rows df !! j = Some r' →
              veqb (cell r' "transaction_id") (cell r "transaction_id") = false).
Proof.
  intros Hrun. pose proof (clean_sales_keys _ _ Hrun) as Hkeys.
  destruct (clean_sales_rows _ _ Hrun) as [_ Hrows].
  split; [|split].
  - assert (Hd : distinct_from [] ((λ r, cell r "transaction_id") <$> rows out)).
    { rewrite Hkeys. apply first_seen_distinct. }
    intros i j a b Hij Ha Hb.
    assert (((λ r, cell r "transaction_id") <$> rows out) !! i
            = Some (cell a "transaction_id")) as Hia
      by (by rewrite list_lookup_fmap, Ha).
    assert (((λ r, cell r "transaction_id") <$> rows out) !! j
            = Some (cell b "transaction_id")) as Hjb
      by (by rewrite list_lookup_fmap, Hb).
    destruct (decide (i < j)%nat).
    + by eapply distinct_from_lookup.
    + rewrite veqb_sym. eapply distinct_from_lookup; [done| |done..]. lia.
  - intros r Hr.
    destruct (first_seen_covers (λ r, cell r "transaction_id") [] _ _ Hr)
      as [?|(y & Hy & Hyr)]; [done|].
    apply list_elem_of_lookup in Hy as [i Hy].
    destruct (Forall2_lookup_l _ _ _ _ _ Hrows Hy) as (o & Ho & Hyo).
    exists o. split; [by eapply list_elem_of_lookup_2|].
    by rewrite (clean_row_tid _ _ Hyo).
  - intros o Ho. apply list_elem_of_lookup in Ho as [k Ho].
    destruct (Forall2_lookup_r _ _ _ _ _ Hrows Ho) as (r & Hr & Hro).
    apply list_elem_of_lookup_2 in Hr.
    apply first_seen_first in Hr as (_ & i & Hi & Hfirst).
    exists i, r. eauto using clean_row_tid.
Qed.

(** [clean_sales] returns for every frame that has the columns it reads
    and whose quantities, once read as numbers, are whole. *)
Lemma clean_sales_returns df :
  Forall (λ c, c ∈ columns df) sales_columns →
  Forall (λ r, ∃ q, to_Int64 (to_numeric_cell (cell r "quantity")) = Ok q)
         (rows df) →
  ∃ out, clean_sales df = Ok out.
Proof.
  intros Hc Hq. rewrite clean_sales_eq by done.
  destruct (mapM_total clean_row
    (first_seen (λ r, cell r "transaction_id") [] (rows df))) as [rs Hrs].
  - apply Forall_forall. intros r Hr.
    apply first_seen_first in Hr as (_ & i & Hi & _).
    apply list_elem_of_lookup_2 in Hi.
    rewrite Forall_forall in Hq. destruct (Hq _ Hi) as [q Hrq].
    unfold clean_row. rewrite Hrq. simpl. by eexists.
  - rewrite Hrs. by eexists.
Qed.
End clean_sales_facts.

Ltac inv_results :=
  repeat match goal with
  | H : (_ ≫= _) = Ok _ |- _ => inv_bind H
  | H : mret _ = Ok _ |- _ => injection H as <-
  | H : Ok _ = Ok _ |- _ => injection H as <-
  end.

Lemma elem_of_add_column cols c c' :
  c' ∈ add_column cols c ↔ c' ∈ cols ∨ c' = c.
Proof.
  unfold add_column. case_decide.
  - split; [by left|]. by intros [?| ->].
  - rewrite elem_of_app, list_elem_of_singleton. done.
Qed.

Lemma zip_fmap_same {A B C} (f : A → B) (g : A → C) (l : list A) :
  zip (f <$> l) (g <$> l) = (λ x, (f x, g x)) <$> l.
Proof. by rewrite zip_with_fmap_l, zip_with_fmap_r, zip_with_diag. Qed.

Lemma series_op_cells op (l : list row) (f g : row → value) :
  series_op op (f <$> l) (g <$> l) = mapM (λ r, op (f r) (g r)) l.
Proof.
  unfold series_op. rewrite !length_fmap, decide_True by done.
  by rewrite zip_fmap_same, mapM_fmap_result.
Qed.

Lemma setitem_rows cols (l : list row) c (g : row → result value)
    {A} (K : frame → result A) :
  (q ← mapM g l; df ← setitem (Frame cols l) c q; K df)
  = (l' ← mapM (λ r, v ← g r; mret (<[c := v]> r)) l;
     K (Frame (add_column cols c) l')).
Proof.
  rewrite mapM_zip_with.
  destruct (mapM g l) as [q|e] eqn:Hq; simpl; [|done].
  apply mapM_Ok_length in Hq. by rewrite setitem_Ok.
Qed.

Lemma bin_step_inv {A} cols l op a b c (K : frame → result A) out :
  (x ← getitem (Frame cols l) a; y ← getitem (Frame cols l) b;
   s ← series_op op x y; df ← setitem (Frame cols l) c s; K df) = Ok out →
  a ∈ cols ∧ b ∈ cols ∧
  ∃ l', Forall2 (λ r o, bin_step op a b c r = Ok o) l l' ∧
        K (Frame (add_column cols c) l') = Ok out.
Proof.
  intros [Ha Hrun]%getitem_inv. apply getitem_inv in Hrun as [Hb Hrun].
  simpl in *. rewrite series_op_cells, setitem_rows in Hrun.
  inv_bind Hrun. apply mapM_Ok in Hx. eauto 6.
Qed.

Lemma Forall2_bind {A B C} (f : A → result B) (g : B → result C) l k m :
  Forall2 (λ x y, f x = Ok y) l k → Forall2 (λ y z, g y = Ok z) k m →
  Forall2 (λ x z, f x ≫= g = Ok z) l m.
Proof.
  intros Hf Hg. eapply Forall2_trans; [|exact Hf|exact Hg].
  simpl. by intros x y z ->.
Qed.

Lemma calculate_metrics_rows df out :
  calculate_metrics df = Ok out →
  Forall2 (λ r o, metrics_row r = Ok o) (rows df) (rows out).
Proof.
  unfold calculate_metrics. destruct df as [cols l]. intros Hrun.
  apply bin_step_inv in Hrun as (_ & _ & l1 & H1 & Hrun).
  apply bin_step_inv in Hrun as (_ & _ & l2 & H2 & Hrun).
  apply bin_step_inv in Hrun as (_ & _ & l3 & H3 & Hrun).
  apply bin_step_inv in Hrun as (_ & _ & l4 & H4 & Hrun).
  apply bin_step_inv in Hrun as (_ & _ & l5 & H5 & Hrun).
  apply getitem_inv in Hrun as [_ Hrun].
  apply getitem_inv in Hrun as [_ Hrun]. simpl in Hrun.
  unfold replace in Hrun.
  rewrite <- list_fmap_compose, series_op_cells in Hrun.
  inv_bind Hrun. inv_bind Hrun. inv_bind Hrun. injection Hrun as <-.
  unfold series_scalar in *.
  apply mapM_Ok in Hx, Hx0.
  unfold setitem in Hx1. case_decide as Hlen; [|done]. injection Hx1 as <-.
  simpl.
  assert (H6 : Forall2 (λ r o, margin_step r = Ok o) l5
                 (zip_with (λ r v, <["profit_margin_pct" := v]> r) l5
                           (round_cell <$> x0))).
  { clear -Hx Hx0. revert x0 Hx0.
    induction Hx as [|r m l5 x Hr _ IH]; intros x0 Hx0.
    - inversion Hx0; subst. constructor.
    - inversion Hx0 as [|? w ? x0' Hw Hx0']; subst. simpl. constructor; [|auto].
      unfold margin_step. simpl in Hr. rewrite Hr. simpl. by rewrite Hw. }
  exact (Forall2_bind _ _ _ _ _ H1 (Forall2_bind _ _ _ _ _ H2
          (Forall2_bind _ _ _ _ _ H3 (Forall2_bind _ _ _ _ _ H4
          (Forall2_bind _ _ _ _ _ H5 H6))))).
Qed.

Lemma is_zero_veqb v : veqb v (VInt 0) = is_zero v.
Proof. by destruct v. Qed.

Lemma arith_null_r fz fq a v : arith fz fq a VNull = Ok v → v = VNull.
Proof. destruct a; simpl; try done; by intros [= <-]. Qed.

Lemma arith_null_l fz fq b v : arith fz fq VNull b = Ok v → v = VNull.
Proof. destruct b; simpl; try done; by intros [= <-]. Qed.

Lemma vdiv_null_r a v : vdiv a VNull = Ok v → v = VNull.
Proof. unfold vdiv. simpl. apply arith_null_r. Qed.

Lemma metrics_row_cost_price r o :
  metrics_row r = Ok o →
  cell o "cost_price" = cell r "cost_price".
Proof.
  unfold metrics_row, bin_step, margin_step. intros Hr.
  inv_results.
  by rewrite !cell_insert.
Qed.

Lemma metrics_row_null_cost r o :
  metrics_row r = Ok o → cell r "cost_price" = VNull →
  cell o "cost_total" = VNull ∧ cell o "profit" = VNull.
Proof.
  unfold metrics_row, bin_step, margin_step. intros Hr Hc.
  inv_results.
  rewrite !cell_insert in *. simpl in *. rewrite Hc in *.
  repeat match goal with
  | H : vmul _ VNull = Ok _ |- _ => apply arith_null_r in H; subst
  | H : vsub _ VNull = Ok _ |- _ => apply arith_null_r in H; subst
  end.
  done.
Qed.

Lemma metrics_row_null_margin r o :
  metrics_row r = Ok o →
  isna (cell o "net_revenue") = true ∨ is_zero (cell o "net_revenue") = true →
  cell o "profit_margin_pct" = VNull.
Proof.
  unfold metrics_row, bin_step, margin_step. intros Hr Hn.
  inv_results.
  rewrite !cell_insert in *. simpl in *.
  match goal with H : vdiv _ (if veqb ?n _ then _ else _) = Ok ?m |- _ =>
    assert (m = VNull) as ->;
    [rewrite is_zero_veqb in *; destruct Hn as [Hn|Hn];
     [destruct n; try done; simpl in *; by eapply vdiv_null_r
     |rewrite Hn in *; by eapply vdiv_null_r]|]
  end.
  match goal with H : vmul VNull _ = Ok _ |- _ =>
    apply arith_null_l in H; subst end.
  done.
Qed.

(** ** No division fault *)

Lemma faultless_bind {A B} (m : result A) (f : A → result B) :
  faultless m → (∀ a, m = Ok a → faultless (f a)) → faultless (m ≫= f).
Proof.
  intros Hm Hf. destruct m as [a|e]; simpl; [by apply Hf|].
  unfold faultless in *. congruence.
Qed.

Lemma faultless_Ok {A} (a : A) : faultless (Ok a).
Proof. done. Qed.

Lemma faultless_getitem df c : faultless (getitem df c).
Proof. unfold getitem. by case_decide. Qed.

Lemma faultless_setitem df c s : faultless (setitem df c s).
Proof. unfold setitem. by case_decide. Qed.

Lemma faultless_arith fz fq a b : faultless (arith fz fq a b).
Proof. by destruct a, b, fz. Qed.

Lemma faultless_vdiv a b : is_zero b = false → faultless (vdiv a b).
Proof. unfold vdiv. intros ->. apply faultless_arith. Qed.

Lemma faultless_mapM {A B} (f : A → result B) l :
  Forall (λ x, faultless (f x)) l → faultless (mapM f l).
Proof.
  induction 1 as [|x l Hx _ IH]; [done|].
  rewrite mapM_cons. apply faultless_bind; [done|]. intros y _.
  apply faultless_bind; [done|]. by intros k _.
Qed.

Lemma faultless_series_op op s t :
  Forall (λ b, ∀ a, faultless (op a b)) t → faultless (series_op op s t).
Proof.
  intros Ht. unfold series_op. case_decide; [|done].
  apply faultless_mapM, Forall_forall. intros [a b] Hab.
  apply elem_of_zip_r in Hab. rewrite Forall_forall in Ht. by apply Ht.
Qed.

Lemma replace_zero_nonzero s :
  Forall (λ b, is_zero b = false) (replace (VInt 0) VNull s).
Proof.
  unfold replace. apply Forall_fmap, Forall_forall. intros v _. simpl.
  rewrite is_zero_veqb. by destruct (is_zero v) eqn:Hv.
Qed.

Lemma calculate_metrics_faultless df : faultless (calculate_metrics df).
Proof.
  unfold calculate_metrics.
  repeat first
    [ apply faultless_Ok
    | apply faultless_bind; [|intros ? _]
    | apply faultless_getitem
    | apply faultless_setitem
    | apply faultless_mapM, Forall_forall; intros ? _; apply faultless_arith
    | apply faultless_series_op;
      first [ eapply Forall_impl; [apply replace_zero_nonzero|];
              intros ???; by apply faultless_vdiv
            | apply Forall_forall; intros ? _ ?; apply faultless_arith ] ].
Qed.

(** C4.  [calculate_metrics] never ends in a division fault, and in
    every batch it returns, row by row: a missing [cost_price] gives a
    missing [cost_total] and a missing [profit], and [profit_margin_pct] is
    missing whenever [net_revenue] is missing or exactly zero. *)
Theorem calculate_metrics_null_propagation df :
  calculate_metrics df ≠ Raise ZeroDivisionError ∧
  ∀ out, calculate_metrics df = Ok out →
    length (rows out) = length (rows df) ∧
    ∀ i r o, rows df !! i = Some r → rows out !! i = Some o →
      (cell r "cost_price" = VNull →
         cell o "cost_total" = VNull ∧ cell o "profit" = VNull) ∧
      (isna (cell o "net_revenue") = true ∨ is_zero (cell o "net_revenue") = true →
         cell o "profit_margin_pct" = VNull).
Proof.
  split; [apply calculate_metrics_faultless|].
  intros out Hrows%calculate_metrics_rows. split.
  - symmetry. by eapply Forall2_length.
  - intros i r o Hr Ho.
    pose proof (Forall2_lookup_lr _ _ _ _ _ _ Hrows Hr Ho) as Hro.
    split; [by apply metrics_row_null_cost|by apply (metrics_row_null_margin r)].
Qed.











(** * Facts about sorting and grouping *)

Lemma insert_by_perm {A} (le : A → A → bool) x l : insert_by le x l ≡ₚ x :: l.
Proof.
  induction l as [|y l IH]; simpl; [done|].
  destruct (le x y); [done|]. rewrite IH. apply perm_swap.
Qed.

Lemma sort_by_perm {A} (le : A → A → bool) l : sort_by le l ≡ₚ l.
Proof.
  induction l as [|x l IH]; simpl; [done|].
  unfold sort_by in *. simpl. by rewrite insert_by_perm, IH.
Qed.

Lemma cell_fmap (f : value → value) (r : row) c :
  f VNull = VNull → cell (f <$> r) c = f (cell r c).
Proof. intros Hf. unfold cell. rewrite lookup_fmap. by destruct (r !! c). Qed.

(** The three summaries have one shape. *)
Lemma summary_rows key specs col asc df out :
  (s ← groupby_agg key specs df;
   s ← sort_values col asc (frame_round s);
   mret s) = Ok out →
  ∃ rs, Forall2 (λ k o, agg_row key specs (rows df) k = Ok o)
                (group_keys key (rows df)) rs ∧
        rows out ≡ₚ (λ r : row, round_cell <$> r) <$> rs.
Proof.
  intros Hrun. apply bind_Ok in Hrun as (s & Hs & Hrun).
  apply bind_Ok in Hrun as (s' & Hs' & Hrun). injection Hrun as <-.
  unfold groupby_agg in Hs.
  case_decide; [|done]. destruct (filter _ _); [|done].
  apply bind_Ok in Hs as (rs & Hrs & Hs). injection Hs as <-.
  apply mapM_Ok in Hrs. exists rs. split; [done|].
  unfold sort_values in Hs'. case_decide; [|done]. injection Hs' as <-.
  simpl. apply sort_by_perm.
Qed.



Lemma group_keys_covers key l r :
  r ∈ l → notna (cell r key) = true →
  ∃ k, k ∈ group_keys key l ∧ veqb k (cell r key) = true.
Proof.
  intros Hr Hn.
  assert (Hin : r ∈ filter (λ r, notna (cell r key) = true) l)
    by (by apply list_elem_of_filter).
  destruct (first_seen_covers (λ r, cell r key) [] _ _ Hin)
    as [?|(y & Hy & Hyr)]; [done|].
  exists (cell y key). split; [|done].
  unfold group_keys. rewrite sort_by_perm. apply list_elem_of_fmap. eauto.
Qed.

Lemma round_cell_notna v : notna (round_cell v) = notna v.
Proof. by destruct v. Qed.



Lemma veqb_congr_r a b c : veqb b c = true → veqb a b = veqb a c.
Proof.
  intros Hbc. apply eq_true_iff_eq. split; intros Hab.
  - eauto using veqb_trans.
  - rewrite veqb_sym in Hbc. eauto using veqb_trans.
Qed.

Lemma group_congr key (l : list row) k k' :
  veqb k k' = true →
  filter (λ r, veqb (cell r key) k = true) l
  = filter (λ r, veqb (cell r key) k' = true) l.
Proof.
  intros Hk. apply list_filter_iff. intros r.
  by rewrite (veqb_congr_r _ _ _ Hk).
Qed.

Lemma arith_notna fz fq a b v :
  arith fz fq a b = Ok v → notna a = true → notna b = true → notna v = true.
Proof. destruct a, b, fz; simpl; try done; by intros [= <-]. Qed.

Lemma series_sum_notna s v : series_sum s = Ok v → notna v = true.
Proof.
  revert v. induction s as [|x s IH]; simpl; intros v Hv.
  - by injection Hv as <-.
  - apply bind_Ok in Hv as (t & Ht & Hv).
    destruct (isna x) eqn:Hx.
    + injection Hv as <-. eauto.
    + eapply arith_notna; [done|by unfold notna; rewrite Hx|eauto].
Qed.

Lemma series_mean_all_null s :
  Forall (λ v, v = VNull) s → series_mean s = Ok VNull.
Proof.
  intros Hs. unfold series_mean.
  assert (filter (λ v, notna v = true) s = []) as ->; [|done].
  induction Hs as [|v s -> _ IH]; [done|].
  rewrite filter_cons. by case_decide.
Qed.

(** C10.  In the store summary, a store group in which every row has a
    missing [profit_margin_pct] gets a missing [avg_profit_margin_pct],
    while its transaction count is the count of its ids and its three sums
    are present. *)
Theorem store_summary_null_margin df out :
  aggregate_by_store df = Ok out →
  ∀ r, r ∈ rows df → notna (cell r "store_id") = true →
    let g := filter (λ r', veqb (cell r' "store_id") (cell r "store_id") = true)
                    (rows df) in
    Forall (λ r', cell r' "profit_margin_pct" = VNull) g →
    ∃ o k, o ∈ rows out ∧ veqb k (cell r "store_id") = true ∧
           cell o "store_id" = round_cell k ∧
           cell o "avg_profit_margin_pct" = VNull ∧
           cell o "total_transactions"
             = series_count ((λ r', cell r' "transaction_id") <$> g) ∧
           notna (cell o "total_units_sold") = true ∧
           notna (cell o "total_net_revenue") = true ∧
           notna (cell o "total_profit") = true.
Proof.
  intros (rs & Hrs & Hperm)%summary_rows r Hr Hn g Hnull.
  destruct (group_keys_covers "store_id" _ _ Hr Hn) as (k & Hk & Hkr).
  apply list_elem_of_lookup in Hk as [i Hk].
  destruct (Forall2_lookup_l _ _ _ _ _ Hrs Hk) as (o & Ho & Hko).
  exists (round_cell <$> o), k. split; [|split; [done|]].
  { rewrite Hperm. apply list_elem_of_fmap. exists o.
    split; [done|]. by eapply list_elem_of_lookup_2. }
  rewrite !cell_fmap by done.
  unfold agg_row in Hko. rewrite (group_congr _ _ _ _ Hkr) in Hko.
  fold g in Hko. simpl in Hko. unfold aggregate in Hko.
  rewrite series_mean_all_null in Hko
    by (by apply Forall_fmap; eapply Forall_impl; [exact Hnull|]).
  inv_results.
  rewrite !cell_insert. simpl. rewrite !round_cell_notna.
  eauto 10 using series_sum_notna.
Qed.













(** ** Groups partition the rows that have a key *)






(** * Objects that exist before a call are left as they are *)


Lemma run_bind {A B} (m : Store.M A) (f : A → Store.M B) h :
  Store.run (m ≫= f) h
  = match Store.run m h with
    | (Ok a, h') => Store.run (f a) h'
    | (Raise e, h') => (Raise e, h')
    end.
Proof. done. Qed.

Lemma safe_ret {A} n (a : A) (Q : A → Prop) : Q a → safe n (mret a) Q.
Proof. intros HQ h res h' Hn [= <- <-]. split; [done|]. split; [done|]. by intros ? [= <-]. Qed.

Lemma safe_bind {A B} n (m : Store.M A) (f : A → Store.M B) Q1 Q2 :
  safe n m Q1 → (∀ a, Q1 a → safe n (f a) Q2) → safe n (m ≫= f) Q2.
Proof.
  intros Hm Hf h res h' Hn Hrun. rewrite run_bind in Hrun.
  destruct (Store.run m h) as [[a|e] h1] eqn:Hm1.
  - destruct (Hm _ _ _ Hn Hm1) as (Hn1 & Ht1 & HQ1).
    destruct (Hf a (HQ1 a eq_refl) _ _ _ Hn1 Hrun) as (? & ? & ?).
    split; [done|]. split; [congruence|done].
  - injection Hrun as <- <-.
    destruct (Hm _ _ _ Hn Hm1) as (Hn1 & Ht1 & HQ1).
    split; [done|]. split; [done|]. done.
Qed.

Lemma safe_weaken {A} n (m : Store.M A) (Q Q' : A → Prop) :
  safe n m Q → (∀ a, Q a → Q' a) → safe n m Q'.
Proof.
  intros Hm HQ h res h' Hn Hrun.
  destruct (Hm _ _ _ Hn Hrun) as (? & ? & ?). eauto.
Qed.

Lemma safe_lift {A} n (r : result A) : safe n (Store.lift r) (λ _, True).
Proof. by intros h res h' Hn [= <- <-]. Qed.

Lemma safe_load n r : safe n (Store.load r) (λ _, True).
Proof.
  intros h res h' Hn. unfold Store.load. cbn [Store.run].
  destruct (_ !! _); intros Hrun; injection Hrun as <- <-; done.
Qed.

Lemma safe_alloc n f : safe n (Store.alloc f) (λ r, (n ≤ r)%nat).
Proof.
  intros h res h' Hn [= <- <-]. rewrite length_app. split; [lia|].
  split; [by apply take_app_le|]. by intros ? [= <-].
Qed.

Lemma safe_store n r f : (n ≤ r)%nat → safe n (Store.store r f) (λ _, True).
Proof.
  intros Hr h res h' Hn [= <- <-]. rewrite length_insert.
  split; [done|]. split; [|done]. by apply take_insert_ge.
Qed.

Lemma safe_read {A} n (f : frame → result A) r : safe n (Store.df_read f r) (λ _, True).
Proof.
  unfold Store.df_read. eapply safe_bind; [apply safe_load|].
  intros x _. apply safe_lift.
Qed.

Lemma safe_apply n f r : safe n (Store.df_apply f r) (λ r', (n ≤ r')%nat).
Proof.
  unfold Store.df_apply. eapply safe_bind; [apply safe_load|]. intros x _.
  eapply safe_bind; [apply safe_lift|]. intros y _. apply safe_alloc.
Qed.

Lemma safe_getitem n r c : safe n (Store.df_getitem r c) (λ _, True).
Proof. apply safe_read. Qed.

Lemma safe_setitem n r c s : (n ≤ r)%nat → safe n (Store.df_setitem r c s) (λ _, True).
Proof.
  intros Hr. unfold Store.df_setitem. eapply safe_bind; [apply safe_load|].
  intros x _. eapply safe_bind; [apply safe_lift|]. intros y _.
  by apply safe_store.
Qed.

Ltac safe_steps :=
  repeat first
    [ apply safe_ret; assumption
    | apply safe_apply
    | eapply safe_bind;
      [ first [ apply safe_apply | apply safe_getitem | apply safe_load
              | apply safe_lift | apply safe_read
              | apply safe_setitem; assumption ]
      | intros ? ? ] ].

Section safe_transform.
Context `{Host}.

Lemma safe_clean_sales n df :
  safe n (Store.clean_sales df) (λ r, (n ≤ r)%nat).
Proof. unfold Store.clean_sales, Store.df_copy. safe_steps. Qed.

Lemma safe_strip_columns n cs df :
  (n ≤ df)%nat → safe n (Store.strip_columns cs df) (λ _, True).
Proof.
  intros Hdf. induction cs as [|c cs IH]; simpl.
  - by apply safe_ret.
  - safe_steps. exact IH.
Qed.

Lemma safe_clean_products n df :
  safe n (Store.clean_products df) (λ r, (n ≤ r)%nat).
Proof.
  unfold Store.clean_products, Store.df_copy.
  eapply safe_bind; [apply safe_apply|]. intros df' Hdf'.
  eapply safe_bind; [apply safe_read|]. intros cs _.
  eapply safe_bind; [by apply safe_strip_columns|]. intros _ _.
  safe_steps.
Qed.
End safe_transform.

Lemma safe_merge_sales_products n s p :
  safe n (Store.merge_sales_products s p) (λ r, (n ≤ r)%nat).
Proof. unfold Store.merge_sales_products. safe_steps. Qed.

Lemma safe_calculate_metrics n df :
  safe n (Store.calculate_metrics df) (λ r, (n ≤ r)%nat).
Proof. unfold Store.calculate_metrics, Store.df_copy. safe_steps. Qed.

Lemma safe_aggregate_by_category n df :
  safe n (Store.aggregate_by_category df) (λ r, (n ≤ r)%nat).
Proof. unfold Store.aggregate_by_category. safe_steps. Qed.

Lemma safe_aggregate_by_store n df :
  safe n (Store.aggregate_by_store df) (λ r, (n ≤ r)%nat).
Proof. unfold Store.aggregate_by_store. safe_steps. Qed.

Lemma safe_aggregate_by_date n df :
  safe n (Store.aggregate_by_date df) (λ r, (n ≤ r)%nat).
Proof. unfold Store.aggregate_by_date. safe_steps. Qed.

Lemma safe_frame {A} (m : Store.M A) Q h r f0 :
  safe (length h) m Q → h !! r = Some f0 → (Store.run m h).2 !! r = Some f0.
Proof.
  intros Hm Hr. destruct (Store.run m h) as [res h'] eqn:Hrun.
  destruct (Hm _ _ _ (le_n _) Hrun) as (Hlen & Htake & _). simpl.
  rewrite (take_ge h) in Htake by lia.
  rewrite <- (lookup_take_lt h' (length h)) by (by eapply lookup_lt_Some).
  by rewrite Htake.
Qed.

(** * The store-level functions compute the frame-level ones *)

Lemma run_lift {A} (r : result A) h : Store.run (Store.lift r) h = (r, h).
Proof. done. Qed.

Lemma run_ret {A} (a : A) h : Store.run (mret a) h = (Ok a, h).
Proof. done. Qed.

Lemma run_load h r x : h !! r = Some x → Store.run (Store.load r) h = (Ok x, h).
Proof. intros Hr. unfold Store.load. cbn [Store.run]. by rewrite Hr. Qed.

Lemma run_apply h r x f :
  h !! r = Some x →
  Store.run (Store.df_apply f r) h
  = match f x with
    | Ok y => (Ok (length h), h ++ [y])
    | Raise e => (Raise e, h)
    end.
Proof.
  intros Hr. unfold Store.df_apply. rewrite run_bind, (run_load _ _ _ Hr).
  rewrite run_bind, run_lift. by destruct (f x).
Qed.

Lemma run_read {A} h r x (f : frame → result A) :
  h !! r = Some x → Store.run (Store.df_read f r) h = (f x, h).
Proof.
  intros Hr. unfold Store.df_read. rewrite run_bind, (run_load _ _ _ Hr).
  rewrite run_lift. done.
Qed.

Lemma lookup_top (h : list frame) x : (h ++ [x]) !! length h = Some x.
Proof. by rewrite list_lookup_middle. Qed.

Lemma run_getitem_top h x c :
  Store.run (Store.df_getitem (length h) c) (h ++ [x]) = (getitem x c, h ++ [x]).
Proof.
  unfold Store.df_getitem.
  apply (run_read (h ++ [x]) (length h) x (λ y, getitem y c)), lookup_top.
Qed.

Lemma run_setitem_top h x c s :
  Store.run (Store.df_setitem (length h) c s) (h ++ [x])
  = match setitem x c s with
    | Ok y => (Ok tt, h ++ [y])
    | Raise e => (Raise e, h ++ [x])
    end.
Proof.
  unfold Store.df_setitem. rewrite run_bind, (run_load _ _ x) by apply lookup_top.
  rewrite run_bind, run_lift. destruct (setitem x c s) as [y|e]; [|done].
  unfold Store.store. cbn [Store.run]. f_equal.
  rewrite <- (Nat.add_0_r (length h)) at 1. by rewrite insert_app_r.
Qed.

Lemma returns_raise e (h : list frame) : returns (Raise e, h) (Raise e).
Proof. by eexists. Qed.

Lemma returns_top h x : returns (Ok (length h), h ++ [x]) (Ok x).
Proof. eexists _, _. split; [done|]. apply lookup_top. Qed.

Lemma run_bind_lift {A B} (r : result A) (f : A → Store.M B) h :
  Store.run (Store.lift r ≫= f) h
  = match r with
    | Ok a => Store.run (f a) h
    | Raise e => (Raise e, h)
    end.
Proof. rewrite run_bind, run_lift. by destruct r. Qed.

Lemma run_bind_getitem_top {B} h x c (f : list value → Store.M B) :
  Store.run (Store.df_getitem (length h) c ≫= f) (h ++ [x])
  = match getitem x c with
    | Ok s => Store.run (f s) (h ++ [x])
    | Raise e => (Raise e, h ++ [x])
    end.
Proof. rewrite run_bind, run_getitem_top. by destruct (getitem x c). Qed.

Lemma run_bind_setitem_top {B} h x c s (f : unit → Store.M B) :
  Store.run (Store.df_setitem (length h) c s ≫= f) (h ++ [x])
  = match setitem x c s with
    | Ok y => Store.run (f tt) (h ++ [y])
    | Raise e => (Raise e, h ++ [x])
    end.
Proof. rewrite run_bind, run_setitem_top. by destruct (setitem x c s). Qed.

(** One statement of the store-level function against the same statement
    of the frame-level one. *)
Ltac store_step :=
  first [ rewrite run_bind_getitem_top
        | rewrite run_bind_setitem_top
        | rewrite run_bind_lift ];
  match goal with |- returns (match ?m with _ => _ end) _ =>
    destruct m; cbn [mbind result_bind]; [|apply returns_raise]
  end.

Section store_transform.
Context `{Host}.

Lemma clean_sales_store h r df :
  h !! r = Some df → returns (Store.run (Store.clean_sales r) h) (clean_sales df).
Proof.
  intros Hr. unfold Store.clean_sales, clean_sales, Store.df_copy.
  rewrite run_bind, (run_apply _ _ _ _ Hr).
  rewrite run_bind, (run_apply _ _ df) by apply lookup_top.
  destruct (drop_duplicates _ df) as [d|e]; cbn [mbind result_bind];
    [|apply returns_raise].
  generalize (h ++ [df]). intros h1.
  repeat store_step.
  rewrite run_ret. apply returns_top.
Qed.
Lemma strip_columns_store h1 cs x :
  match strip_columns cs x with
  | Ok y => Store.run (Store.strip_columns cs (length h1)) (h1 ++ [x])
            = (Ok tt, h1 ++ [y])
  | Raise e => ∃ x', Store.run (Store.strip_columns cs (length h1)) (h1 ++ [x])
                     = (Raise e, h1 ++ [x'])
  end.
Proof.
  revert x. induction cs as [|c cs IH]; intros x; [done|].
  cbn [strip_columns Store.strip_columns].
  rewrite run_bind_getitem_top.
  destruct (getitem x c) as [s|e]; cbn [mbind result_bind]; [|by eexists].
  rewrite run_bind_setitem_top.
  destruct (setitem x c _) as [y|e]; cbn [mbind result_bind]; [|by eexists].
  apply IH.
Qed.

Lemma clean_products_store h r df :
  h !! r = Some df →
  returns (Store.run (Store.clean_products r) h) (clean_products df).
Proof.
  intros Hr. unfold Store.clean_products, clean_products, Store.df_copy.
  rewrite run_bind, (run_apply _ _ _ _ Hr).
  rewrite run_bind, (run_read _ _ df) by apply lookup_top.
  rewrite run_bind.
  pose proof (strip_columns_store h (object_columns df) df) as Hs.
  destruct (strip_columns _ df) as [y|e]; cbn [mbind result_bind].
  - rewrite Hs. repeat store_step. rewrite run_ret. apply returns_top.
  - destruct Hs as [x' ->]. apply returns_raise.
Qed.
End store_transform.

Lemma calculate_metrics_store h r df :
  h !! r = Some df →
  returns (Store.run (Store.calculate_metrics r) h) (calculate_metrics df).
Proof.
  intros Hr. unfold Store.calculate_metrics, calculate_metrics, Store.df_copy.
  rewrite run_bind, (run_apply _ _ _ _ Hr).
  repeat store_step. rewrite run_ret. apply returns_top.
Qed.

Lemma merge_sales_products_store h s p sales products :
  h !! s = Some sales → h !! p = Some products →
  returns (Store.run (Store.merge_sales_products s p) h)
          (merge_sales_products sales products).
Proof.
  intros Hs Hp. unfold Store.merge_sales_products, merge_sales_products.
  rewrite run_bind, (run_apply _ _ _ _ Hp).
  destruct (select_columns _ products) as [right|e]; cbn [mbind result_bind];
    [|apply returns_raise].
  rewrite run_bind, (run_load _ _ right) by apply lookup_top.
  rewrite run_bind, (run_apply _ _ sales)
    by (rewrite lookup_app_l; [done|by eapply lookup_lt_Some]).
  destruct (merge_left sales right _) as [merged|e]; cbn [mbind result_bind];
    [|apply returns_raise].
  store_step. rewrite run_ret. apply returns_top.
Qed.

(** A chain of three methods, each returning a new frame. *)
Lemma summary_store h r df key specs col asc :
  h !! r = Some df →
  returns
    (Store.run (s ← Store.df_apply (groupby_agg key specs) r;
                s ← Store.df_apply (λ x, Ok (frame_round x)) s;
                Store.df_apply (sort_values col asc) s) h)
    (s ← groupby_agg key specs df;
     s ← sort_values col asc (frame_round s);
     mret s).
Proof.
  intros Hr. rewrite run_bind, (run_apply _ _ _ _ Hr).
  destruct (groupby_agg key specs df) as [s|e]; cbn [mbind result_bind];
    [|apply returns_raise].
  rewrite run_bind, (run_apply _ _ s) by apply lookup_top.
  rewrite (run_apply _ _ (frame_round s)) by apply lookup_top.
  destruct (sort_values col asc _) as [s'|e]; cbn [mbind result_bind];
    [apply returns_top|apply returns_raise].
Qed.

Lemma aggregate_by_category_store h r df :
  h !! r = Some df →
  returns (Store.run (Store.aggregate_by_category r) h) (aggregate_by_category df).
Proof. apply summary_store. Qed.

Lemma aggregate_by_store_store h r df :
  h !! r = Some df →
  returns (Store.run (Store.aggregate_by_store r) h) (aggregate_by_store df).
Proof. apply summary_store. Qed.

Lemma aggregate_by_date_store h r df :
  h !! r = Some df →
  returns (Store.run (Store.aggregate_by_date r) h) (aggregate_by_date df).
Proof. apply summary_store. Qed.

(** C8.  No operation mutates a frame that exists when it is called, its
    arguments included: after [clean_sales], [clean_products],
    [merge_sales_products], [calculate_metrics], any of the three
    aggregations or any check of the validator, every object of the store
    is the frame it was before the call, whether the call returned or
    raised. *)
Theorem operations_leave_existing_frames `{Host} (h : list frame) r f0 :
  h !! r = Some f0 →
  (∀ df, (Store.run (Store.clean_sales df) h).2 !! r = Some f0) ∧
  (∀ df, (Store.run (Store.clean_products df) h).2 !! r = Some f0) ∧
  (∀ s p, (Store.run (Store.merge_sales_products s p) h).2 !! r = Some f0) ∧
  (∀ df, (Store.run (Store.calculate_metrics df) h).2 !! r = Some f0) ∧
  (∀ df, (Store.run (Store.aggregate_by_category df) h).2 !! r = Some f0) ∧
  (∀ df, (Store.run (Store.aggregate_by_store df) h).2 !! r = Some f0) ∧
  (∀ df, (Store.run (Store.aggregate_by_date df) h).2 !! r = Some f0) ∧
  (∀ df cs, (Store.run (Store.check_required_columns df cs) h).2 !! r = Some f0) ∧
  (∀ df cs, (Store.run (Store.check_no_nulls df cs) h).2 !! r = Some f0) ∧
  (∀ df c, (Store.run (Store.check_no_duplicates df c) h).2 !! r = Some f0) ∧
  (∀ df c lo hi,
     (Store.run (Store.check_numeric_range df c lo hi) h).2 !! r = Some f0) ∧
  (∀ df c fmt, (Store.run (Store.check_date_format df c fmt) h).2 !! r = Some f0) ∧
  (∀ df, (Store.run (Store.run_sales_validation df) h).2 !! r = Some f0).
Proof.
  intros Hr. repeat split; intros; (eapply safe_frame; [|exact Hr]);
    first [ apply safe_clean_sales | apply safe_clean_products
          | apply safe_merge_sales_products | apply safe_calculate_metrics
          | apply safe_aggregate_by_category | apply safe_aggregate_by_store
          | apply safe_aggregate_by_date | apply safe_read ].
Qed.

(** * The checks on a column that does not exist *)

Section missing_columns.
Context `{Host}.

Lemma null_counts_of_skip df cols acc :
  null_counts_of df cols acc
  = null_counts_of df (filter (λ c, c ∈ columns df) cols) acc.
Proof.
  revert acc. induction cols as [|c cols IH]; intros acc; [done|].
  rewrite filter_cons. cbn [null_counts_of]. case_decide as Hc.
  - cbn [null_counts_of]. rewrite decide_True by done.
    destruct (getitem df c); cbn [mbind result_bind]; [apply IH|done].
  - apply IH.
Qed.

Lemma null_counts_of_total df cols acc :
  ∃ d, null_counts_of df cols acc = Ok d.
Proof.
  revert acc. induction cols as [|c cols IH]; intros acc; [by eexists|].
  cbn [null_counts_of]. case_decide as Hc; [|apply IH].
  rewrite getitem_Ok by done. cbn [mbind result_bind]. apply IH.
Qed.

Lemma check_no_nulls_total df cols : ∃ v, check_no_nulls df cols = Ok v.
Proof.
  unfold check_no_nulls.
  destruct (null_counts_of_total df cols []) as [d ->]. cbn [mbind result_bind].
  destruct (filter _ d); by eexists.
Qed.

(** C2, as the code has it.  When the named column does not exist,
    [check_no_duplicates], [check_numeric_range] and [check_date_format]
    return a failed result with the message Column '<name>' not found;
    [check_no_nulls] leaves out the columns that do not exist (so it passes
    when it is given only such a column); none of the four raises. *)
Theorem checks_on_missing_column df c :
  c ∉ columns df →
  check_no_duplicates df c
    = Ok (CheckResult false ("Column '" +:+ c +:+ "' not found") NoDetail) ∧
  (∀ lo hi, check_numeric_range df c lo hi
    = Ok (CheckResult false ("Column '" +:+ c +:+ "' not found") NoDetail)) ∧
  (∀ fmt, check_date_format df c fmt
    = Ok (CheckResult false ("Column '" +:+ c +:+ "' not found") NoDetail)) ∧
  check_no_nulls df [c]
    = Ok (CheckResult true "No nulls in required columns" (NullCounts [])) ∧
  (∀ cols, check_no_nulls df cols
           = check_no_nulls df (filter (λ x, x ∈ columns df) cols)) ∧
  (∀ cols, ∃ v, check_no_nulls df cols = Ok v).
Proof.
  intros Hc. repeat split.
  - unfold check_no_duplicates. by rewrite decide_True.
  - intros lo hi. unfold check_numeric_range. by rewrite decide_True.
  - intros fmt. unfold check_date_format. by rewrite decide_True.
  - unfold check_no_nulls. cbn [null_counts_of]. by rewrite decide_False.
  - intros cols. unfold check_no_nulls. by rewrite null_counts_of_skip.
  - apply check_no_nulls_total.
Qed.
End missing_columns.

(** * Examples *)

Ltac by_decide := apply (bool_decide_unpack _); vm_compute; exact I.

Lemma checks_on_missing_column_witness :
  @check_no_duplicates example_host no_product_id_batch "product_id"
  = Ok (CheckResult false "Column 'product_id' not found" NoDetail).
Proof.
  apply (@checks_on_missing_column example_host no_product_id_batch "product_id").
  by_decide.
Defined.

(** C2, as the claim states it, at [no_product_id_batch]: the column
    [product_id] does not exist and [check_no_nulls] passes. *)
Lemma check_no_nulls_passes_on_missing_column :
  ("product_id" ∉ columns no_product_id_batch) ∧
  @check_no_nulls example_host no_product_id_batch ["product_id"]
  = Ok (CheckResult true "No nulls in required columns" (NullCounts [])).
Proof. split; [by_decide|reflexivity]. Qed.

Lemma clean_sales_idempotent_witness :
  @clean_sales example_host clean_sales_example = Ok clean_sales_example.
Proof.
  apply (@clean_sales_idempotent example_host raw_sales_example).
  vm_compute. reflexivity.
Defined.

Lemma clean_sales_first_occurrence_witness :
  Forall (λ r, ∃ o, o ∈ rows clean_sales_example ∧
                    veqb (cell o "transaction_id") (cell r "transaction_id")
                    = true)
         (rows raw_sales_example).
Proof.
  assert (Hrun : @clean_sales example_host raw_sales_example
                 = Ok clean_sales_example) by (vm_compute; reflexivity).
  destruct (@clean_sales_first_occurrence example_host _ _ Hrun)
    as (_ & Hcover & _).
  apply Forall_forall. exact Hcover.
Defined.

Lemma calculate_metrics_null_propagation_witness :
  Forall2 (λ r o, cell r "cost_price" = VNull →
                  cell o "cost_total" = VNull ∧ cell o "profit" = VNull)
          (rows enriched_example) (rows metrics_example).
Proof.
  assert (Hrun : calculate_metrics enriched_example = Ok metrics_example)
    by (vm_compute; reflexivity).
  destruct (calculate_metrics_null_propagation enriched_example) as [_ Hout].
  destruct (Hout _ Hrun) as [Hlen Hrows].
  apply Forall2_same_length_lookup_2; [exact (eq_sym Hlen)|].
  intros i r o Hr Ho. exact (proj1 (Hrows i r o Hr Ho)).
Defined.







Lemma store_summary_null_margin_witness :
  ∃ out o, aggregate_by_store unmatched_sale_metrics = Ok out ∧
           o ∈ rows out ∧
           cell o "avg_profit_margin_pct" = VNull ∧
           notna (cell o "total_net_revenue") = true.
Proof.
  eexists.
  assert (Hrun : aggregate_by_store unmatched_sale_metrics = Ok ?[out])
    by (vm_compute; reflexivity).
  assert (Hin : unmatched_sale_row ∈ rows unmatched_sale_metrics) by (by left).
  destruct (store_summary_null_margin _ _ Hrun _ Hin)
    as (o & k & Ho & _ & _ & Havg & _ & _ & Hnet & _).
  - vm_compute. reflexivity.
  - vm_compute. repeat constructor.
  - exists o. split; [exact Hrun|]. split; [exact Ho|]. split; [exact Havg|exact Hnet].
Defined.

Lemma operations_leave_existing_frames_witness :
  (Store.run (@Store.clean_sales example_host 0)
             [raw_sales_example; raw_products_example]).2 !! 0%nat
  = Some raw_sales_example.
Proof.
  destruct (@operations_leave_existing_frames example_host
              [raw_sales_example; raw_products_example] 0 raw_sales_example
              eq_refl) as (Hclean & _).
  exact (Hclean 0%nat).
Defined.
